(** * Pivot / change-point signal engine of [pvtlevels_signals.py]

    A shallow embedding of [checkhl], [pivot], [detect_change_points],
    [generate_signals] and [get_pvt_signals], and the properties of the
    structural signal engine proved about it.

    Modelling choices.
    - Prices and oscillator values are binary64 floats ([PrimFloat.float]);
      [np.nan] is [nan], [np.isnan] is [is_nan], and the comparisons are the
      IEEE ones (every comparison with NaN is false).
    - Python integers are [Z].  Positions inside a sequence are [nat] once they
      are known to be in range.
    - A raised exception is the [Raise] outcome of the [res] monad.
    - A table is the list of its rows, each with its index label; index labels
      are integers (a [RangeIndex] after [reset_index], or the nanosecond
      count of a timestamp).  Positional access ([iloc]) goes by the place in
      the list, access by label ([at], the join on the index) by the label.
    - The segmentation routine of the ruptures package is a parameter of the
      engine. *)

From Stdlib Require Import ZArith Floats String Bool Lia.
From stdpp Require Import base tactics option list numbers strings.

Local Open Scope string_scope.
Local Open Scope Z_scope.

(** ** Exceptions *)

Inductive exn : Type :=
  | IndexError
  | ValueError
  | BadSegmentationParameters.

Inductive res (A : Type) : Type :=
  | Ok (a : A)
  | Raise (e : exn).

Arguments Ok {A} a.
Arguments Raise {A} e.

Definition bind {A B : Type} (m : res A) (k : A -> res B) : res B :=
  match m with
  | Ok a => k a
  | Raise e => Raise e
  end.

Notation "'let!' x ':=' m 'in' k" := (bind m (fun x => k))
  (at level 10, x name, m at level 100, k at level 200, only parsing).

(** [for x in xs: s = body(s, x)], stopping at the first exception. *)
Fixpoint for_each {A S : Type} (body : S -> A -> res S) (xs : list A) (s : S) : res S :=
  match xs with
  | [] => Ok s
  | x :: xs' => let! s' := body s x in for_each body xs' s'
  end.

(** ** Python sequence operations *)

Module Py.

(** [len(l)] *)
Definition len {A : Type} (l : list A) : Z := Z.of_nat (length l).

(** [range(a, b)] *)
Definition range (a b : Z) : list Z := seqZ a (b - a).

(** A slice bound: a negative bound counts from the end, and the result is
    clamped into [0, len]. *)
Definition bound (n k : Z) : Z :=
  if k <? 0 then Z.max 0 (k + n) else Z.min k n.

(** [l[lo:hi]], also [s.iloc[lo:hi].values] *)
Definition slice {A : Type} (l : list A) (lo hi : Z) : list A :=
  let a := bound (len l) lo in
  let b := bound (len l) hi in
  take (Z.to_nat (b - a)) (drop (Z.to_nat a) l).

(** The position a scalar subscript [k] refers to: negative subscripts count
    from the end, anything outside the sequence is an [IndexError]. *)
Definition position (n k : Z) : res nat :=
  let k' := if k <? 0 then k + n else k in
  if (0 <=? k') && (k' <? n) then Ok (Z.to_nat k') else Raise IndexError.

(** [l[k]], also [s.iloc[k]] *)
Definition item {A : Type} (l : list A) (k : Z) : res A :=
  let! p := position (len l) k in
  match l !! p with
  | Some x => Ok x
  | None => Raise IndexError
  end.

(** [l[k] = v], also [df.iloc[k, col] = v] *)
Definition setitem {A : Type} (l : list A) (k : Z) (v : A) : res (list A) :=
  let! p := position (len l) k in
  Ok (<[p := v]> l).

(** [all(p(x) for x in l)] *)
Definition all {A : Type} (p : A -> bool) (l : list A) : bool := forallb p l.

(** [sum(l)] of integers *)
Definition sum (l : list Z) : Z := foldr Z.add 0 l.

End Py.

(** ** Float comparisons as Python writes them *)

Definition fge (a b : float) : bool := PrimFloat.leb b a.   (* a >= b *)
Definition fgt (a b : float) : bool := PrimFloat.ltb b a.   (* a > b *)
Definition fle (a b : float) : bool := PrimFloat.leb a b.   (* a <= b *)
Definition flt (a b : float) : bool := PrimFloat.ltb a b.   (* a < b *)

(** ** Pivot detection *)

Definition checkhl (data_back data_forward : list float) (hl : string) : res bool :=
  let! ref := Py.item data_back (-1) in
  if String.eqb hl "high" then
    Ok (Py.all (fun x => fge ref x) (Py.slice data_back 0 (-1))
        && Py.all (fun x => fgt ref x) data_forward)
  else if String.eqb hl "low" then
    Ok (Py.all (fun x => fle ref x) (Py.slice data_back 0 (-1))
        && Py.all (fun x => flt ref x) data_forward)
  else Ok false.

(** One iteration of the loop of [pivot]. *)
Definition pivot_step (osc : list float) (LBL LBR : Z) (highlow : string)
    (pivots : list float) (i : Z) : res (list float) :=
  let left := Py.slice osc (i - LBL) (i + 1) in
  let right := Py.slice osc (i + 1) (i + LBR + 1) in
  let! b := checkhl left right highlow in
  if b then
    let! v := Py.item osc i in
    Py.setitem pivots i v
  else Ok pivots.

Definition pivot (osc : list float) (LBL LBR : Z) (highlow : string) : res (list float) :=
  let pivots := replicate (length osc) nan in
  for_each (pivot_step osc LBL LBR highlow) (Py.range LBL (Py.len osc - LBR)) pivots.

(** [not np.isnan(p.iloc[i])]: position [i] of a pivot sequence holds a mark. *)
Definition marked (p : list float) (i : nat) : Prop :=
  exists v, p !! i = Some v /\ is_nan v = false.

(** The window condition of the pivot rule at position [i], with [ge] the
    comparison against the [left] elements before [i] and [gt] the comparison
    against the [right] elements after [i]. *)
Definition window_ok (ge gt : float -> float -> bool)
    (osc : list float) (left right : Z) (i : nat) : Prop :=
  left <= Z.of_nat i < Py.len osc - right /\
  exists ref, osc !! i = Some ref /\
    (forall j x, Z.of_nat i - left <= Z.of_nat j < Z.of_nat i ->
                 osc !! j = Some x -> ge ref x = true) /\
    (forall j x, Z.of_nat i < Z.of_nat j <= Z.of_nat i + right ->
                 osc !! j = Some x -> gt ref x = true).

(** ** The signal frame *)

(** One bar of the input of [generate_signals]: the index label with the price
    and the oscillator value it carries.  [price_data] and [oscillator] are
    two Series on one index (in [get_pvt_signals] the second is a copy of the
    first), so they are given together, row by row. *)
Record bar : Type := Bar {
  label : Z;
  price_value : float;
  osc_value : float
}.

(** A row of the DataFrame [signals]. *)
Record SignalRow : Type := {
  price : float;
  osc : float;
  pvtHigh : float;
  pvtLow : float;
  change_point : Z;
  buy_signal : bool;
  sell_signal : bool;
  signal : string
}.

(** A frame is the list of its rows, each with its index label. *)
Abbreviation SignalFrame := (list (Z * SignalRow)).

(** [df[col] = values] for a Python list: pandas raises [ValueError] when the
    list has not one value per row. *)
Definition column {A : Type} (n : nat) (values : list A) : res (list A) :=
  if decide (length values = n) then Ok values else Raise ValueError.

(** [df.at[lbl, col] = v]: the assignment goes by label, and reaches every row
    that carries the label. *)
Definition set_at {A : Type} (index : list Z) (lbl : Z) (v : A) (col : list A) : list A :=
  zip_with (fun t old => if Z.eqb t lbl then v else old) index col.

(** The body of [for cp in cp_indices]. *)
Definition mark_change_point (n : Z) (change_point : list Z) (cp : Z) : res (list Z) :=
  if cp <? n then Py.setitem change_point cp 1 else Ok change_point.

(** The body of [for i in range(len(signals))]; the state is the pair of the
    columns [buy_signal] and [sell_signal]. *)
Definition fuse_step (index : list Z) (pvtHigh pvtLow : list float)
    (change_point : list Z) (cp_window : Z)
    (st : list bool * list bool) (i : Z) : res (list bool * list bool) :=
  let n := Py.len index in
  let window_start := Z.max 0 (i - cp_window) in
  let window_end := Z.min (n - 1) (i + cp_window) in
  if 0 <? Py.sum (Py.slice change_point window_start (window_end + 1)) then
    let! low := Py.item pvtLow i in
    let! buy :=
      (if negb (is_nan low)
       then let! lbl := Py.item index i in Ok (set_at index lbl true (fst st))
       else Ok (fst st)) in
    let! high := Py.item pvtHigh i in
    let! sell :=
      (if negb (is_nan high)
       then let! lbl := Py.item index i in Ok (set_at index lbl true (snd st))
       else Ok (snd st)) in
    Ok (buy, sell)
  else Ok st.

Definition get_signal (buy_signal sell_signal : bool) : string :=
  if buy_signal && negb sell_signal then "buy"
  else if sell_signal && negb buy_signal then "sell"
  else "hold".

(** The frame assembled from its columns; the column [signal] is
    [signals.apply(get_signal, axis=1)]. *)
Definition frame_of (index : list Z) (prices oscs highs lows : list float)
    (cps : list Z) (buys sells : list bool) : SignalFrame :=
  imap (fun i lbl =>
          (lbl, {| price := default nan (prices !! i);
                   osc := default nan (oscs !! i);
                   pvtHigh := default nan (highs !! i);
                   pvtLow := default nan (lows !! i);
                   change_point := default 0 (cps !! i);
                   buy_signal := default false (buys !! i);
                   sell_signal := default false (sells !! i);
                   signal := get_signal (default false (buys !! i))
                                        (default false (sells !! i)) |}))
       index.

(** [how='left'] join on the index: the rows of [left] in their order, each
    paired with every row of [right] that carries its label, or with nothing
    ([None], the nulls pandas fills in) when no row of [right] does. *)
Definition merge_left {A B : Type} (left : list (Z * A)) (right : list (Z * B))
    : list (Z * A * option B) :=
  left ≫= (fun la =>
    match filter (fun rb => rb.1 = la.1) right with
    | [] => [(la.1, la.2, None)]
    | matches => (fun rb => (la.1, la.2, Some rb.2)) <$> matches
    end).

(** The columns [get_pvt_signals] adds to a row: the flag columns are dropped
    and [signal] is renamed. *)
Record AddedColumns : Type := {
  added_price : float;
  added_osc : float;
  added_pvtHigh : float;
  added_pvtLow : float;
  added_change_point : Z;
  cpd_pvt_signals : string
}.

Definition drop_and_rename (r : SignalRow) : AddedColumns :=
  {| added_price := price r;
     added_osc := osc r;
     added_pvtHigh := pvtHigh r;
     added_pvtLow := pvtLow r;
     added_change_point := change_point r;
     cpd_pvt_signals := signal r |}.

Section Engine.

(** [rpt.Pelt(model=model).fit(signal).predict(pen=pen)], the segmentation
    routine of the ruptures package: the breakpoints it returns, or the
    exception it raises. *)
Variable Pelt_fit_predict : string -> list float -> Z -> res (list Z).

Definition detect_change_points (series : list float) (model : string) (pen : Z)
    : res (list Z) :=
  let! cp_indices := Pelt_fit_predict model series pen in
  Ok cp_indices.

Definition generate_signals (bars : list bar)
    (LBL LBR cp_penalty : Z) (cp_model : string) (cp_window : Z) : res SignalFrame :=
  let index := label <$> bars in
  let price_data := price_value <$> bars in
  let oscillator := osc_value <$> bars in
  let! pvtHigh := pivot oscillator LBL LBR "high" in
  let! pvtLow := pivot oscillator LBL LBR "low" in
  let! pvtHigh := column (length index) pvtHigh in
  let! pvtLow := column (length index) pvtLow in
  let! cp_indices := detect_change_points price_data cp_model cp_penalty in
  let! change_point :=
    for_each (mark_change_point (Py.len index)) cp_indices
             (replicate (length index) 0) in
  let! flags :=
    for_each (fuse_step index pvtHigh pvtLow change_point cp_window)
             (Py.range 0 (Py.len index))
             (replicate (length index) false, replicate (length index) false) in
  Ok (frame_of index price_data oscillator pvtHigh pvtLow change_point
               (fst flags) (snd flags)).

(** The table [data]: its rows with their index labels.  [Row] stands for the
    columns the caller brings, of which only [Close] is read. *)
Context {Row : Type} (Close : Row -> float).

Definition get_pvt_signals (data : list (Z * Row))
    : res (list (Z * Row * option AddedColumns)) :=
  let bars : list bar :=
    (fun d : Z * Row => Bar d.1 (Close d.2) (Close d.2)) <$> data in
  let! signals := generate_signals bars 5 5 20 "rbf" 8 in
  let active_signals :=
    filter (fun r => buy_signal r.2 || sell_signal r.2 = true) signals in
  let merged_data := merge_left data active_signals in
  Ok ((fun m : Z * Row * option SignalRow => (m.1, drop_and_rename <$> m.2))
        <$> merged_data).

End Engine.

(** ** The caller, [Signals.py] *)

(** [lambda x: 'Buy' if x < 30 else ('Sell' if x > 65 else 'Hold')], applied to
    the column [RSI]. *)
Definition rsi_signal (x : float) : string :=
  if flt x 30 then "Buy" else if fgt x 65 then "Sell" else "Hold".

(** The column [macd_signals] of a row, from its [MACD], [Signal] and [RSI]:
    the column starts as [None], the rows of the first condition are set to
    'Buy', then the rows of the second one to 'Sell'. *)
Definition macd_signals (MACD Signal RSI : float) : option string :=
  let MACD_Hist := PrimFloat.sub MACD Signal in
  let buy_condition :=
    fgt MACD 1 && fgt MACD Signal && fgt MACD_Hist 1 && fgt RSI 40 in
  let sell_condition :=
    flt MACD (-1) && flt MACD Signal && flt MACD_Hist (-1) && flt RSI 60 in
  let v := None in
  let v := if buy_condition then Some "Buy" else v in
  if sell_condition then Some "Sell" else v.

(** The column [final_signal] of a row, from its [cpd_pvt_signals] (null is
    [None]) and its [macd_signals]. *)
Definition final_signal (cpd macd : option string) : option string :=
  let v := None in
  let v := if bool_decide (cpd = Some "buy") && bool_decide (macd = Some "Buy")
           then Some "Buy" else v in
  if bool_decide (cpd = Some "sell") && bool_decide (macd = Some "Sell")
  then Some "Sell" else v.

(** [final_signals = output[output['final_signal'].notna()]], and the three
    numbers of the headline: [len(final_signals)] and the lengths of its
    "Buy" and "Sell" parts. *)
Definition final_signals (output : list (option string * option string))
    : list (option string) :=
  filter (fun v => v <> None) ((fun r => final_signal r.1 r.2) <$> output).

Definition headline (output : list (option string * option string)) : nat * nat * nat :=
  (length (final_signals output),
   length (filter (fun v => v = Some "Buy") (final_signals output)),
   length (filter (fun v => v = Some "Sell") (final_signals output))).

Section Bot.

Variable Pelt_fit_predict : string -> list float -> Z -> res (list Z).
Context {Row : Type} (Close : Row -> float).

(** What lies outside the program: the file [stocks_data/<stock>.csv] when it
    exists and was created today, read by [pd.read_csv]; and the bars
    [ticker.history(...).dropna().reset_index()] with the indicator columns
    computed on them, in their order. *)
Variable cached : string -> option (res (list (Z * Row * option AddedColumns))).
Variable history : string -> res (list Row).

(** The [RangeIndex] that [reset_index] gives the rows. *)
Definition reset_index (rows : list Row) : list (Z * Row) :=
  imap (fun i r => (Z.of_nat i, r)) rows.

Definition get_data (stock : string) : res (list (Z * Row * option AddedColumns)) :=
  match cached stock with
  | Some file => file
  | None =>
      let! data := history stock in
      get_pvt_signals Pelt_fit_predict Close (reset_index data)
  end.

(** The body of [for stock in stocks], with its [try] and [except Exception]. *)
Definition collect (signal_data : list (list (Z * Row * option AddedColumns)))
    (stock : string) : list (list (Z * Row * option AddedColumns)) :=
  match get_data stock with
  | Ok data => (signal_data ++ [data])%list
  | Raise _ => signal_data
  end.

(** [start_bot], over the symbols read from [nifty_100.csv]; [pd.concat]
    refuses an empty list with a [ValueError]. *)
Definition start_bot (stocks : list string) : res (list (Z * Row * option AddedColumns)) :=
  let signal_data := foldl collect [] stocks in
  match signal_data with
  | [] => Raise ValueError
  | _ => Ok (concat signal_data)
  end.

End Bot.

(** What [checkhl] decides for position [i], read off the series itself
    rather than off the two slices. *)
Definition window_test (ge gt : float -> float -> bool)
    (osc : list float) (left right : Z) (i : nat) : bool :=
  match osc !! i with
  | Some ref =>
      Py.all (ge ref) (take (Z.to_nat left) (drop (i - Z.to_nat left) osc))
      && Py.all (gt ref) (take (Z.to_nat right) (drop (S i) osc))
  | None => false
  end.

Definition pivot_test (hl : string) (osc : list float) (left right : Z) (i : nat) : bool :=
  if String.eqb hl "high" then window_test fge fgt osc left right i
  else if String.eqb hl "low" then window_test fle flt osc left right i
  else false.

(** What the loop of [generate_signals] computes, step by step, written as
    functions of the position. *)

(** The test [change_point.iloc[window_start:window_end+1].sum() > 0] at [i]. *)
Definition near_change_point (change_point : list Z) (cp_window n : Z) (i : nat) : bool :=
  0 <? Py.sum (Py.slice change_point
                 (Z.max 0 (Z.of_nat i - cp_window))
                 (Z.min (n - 1) (Z.of_nat i + cp_window) + 1)).

(** Position [i] is near a change point and [marks] holds a number there. *)
Definition eligible (change_point : list Z) (cp_window n : Z) (marks : list float)
    (i : nat) : bool :=
  near_change_point change_point cp_window n i
  && negb (is_nan (default nan (marks !! i))).

(** The effect of one iteration on one of the two flag columns. *)
Definition raise_flag (index : list Z) (change_point : list Z) (cp_window : Z)
    (marks : list float) (col : list bool) (i : Z) : list bool :=
  if eligible change_point cp_window (Py.len index) marks (Z.to_nat i)
  then set_at index (default 0 (index !! Z.to_nat i)) true col
  else col.

(** The sum of the change-point flags of the rows [a], ..., [b] of a frame. *)
Definition flags_between (frame : SignalFrame) (a b : Z) : Z :=
  Py.sum ((fun r => change_point r.2)
            <$> take (Z.to_nat (b - a + 1)) (drop (Z.to_nat a) frame)).

(** The frame [generate_signals] returns once the pivot sequences [highs] and
    [lows] and the change-point column [cps] are known. *)
Definition fused_frame (bars : list bar) (highs lows : list float) (cps : list Z)
    (cp_window : Z) : SignalFrame :=
  let index := label <$> bars in
  frame_of index (price_value <$> bars) (osc_value <$> bars) highs lows cps
    (foldl (raise_flag index cps cp_window lows)
           (replicate (length index) false) (Py.range 0 (Py.len index)))
    (foldl (raise_flag index cps cp_window highs)
           (replicate (length index) false) (Py.range 0 (Py.len index))).

(** What the pivot rule asks of the sequence [out] returned for [osc]: one
    entry per input position; a position that meets the window condition
    carries the series value, every other position carries NaN; and the entry
    reads as a mark exactly at the positions that meet the condition (for a
    window with at least one neighbour a NaN never meets it, for the empty
    window the stored value must itself be a number to be read as a mark). *)
Definition pivot_result (ge gt : float -> float -> bool)
    (osc : list float) (left right : Z) (out : list float) : Prop :=
  length out = length osc /\
  forall i ref, osc !! i = Some ref ->
    (window_ok ge gt osc left right i -> out !! i = Some ref) /\
    (~ window_ok ge gt osc left right i -> out !! i = Some nan) /\
    (0 < left + right \/ is_nan ref = false ->
       (marked out i <-> window_ok ge gt osc left right i)).

(** Every entry of [pivots] is NaN or the value of the series at its own
    position. *)
Definition entries_of_series (osc pivots : list float) : Prop :=
  length pivots = length osc /\
  forall k v, pivots !! k = Some v -> is_nan v = false -> osc !! k = Some v.

(** ** Inputs of the examples *)

(** Stand-ins for the segmentation routine: the answer of ruptures for a
    signal with breakpoints [bkps] (the number of samples closes the list),
    and a routine that refuses its input. *)
Definition Pelt_answers (bkps : list Z) : string -> list float -> Z -> res (list Z) :=
  fun _ signal _ => Ok (bkps ++ [Py.len signal])%list.

Definition Pelt_refuses : string -> list float -> Z -> res (list Z) :=
  fun _ _ _ => Raise BadSegmentationParameters.

(** No file of today for any stock, and a listing that knows one symbol. *)
Definition no_file : string -> option (res (list (Z * float * option AddedColumns))) :=
  fun _ => None.

Definition history_of_TCS : string -> res (list float) :=
  fun stock =>
    if String.eqb stock "TCS"
    then Ok [1; 5; 2; 8; 3; 1; 9; 2; 1; 2; 3; 4; 5; 6; 7; 8]%float
    else Raise ValueError.

(** A table with the index 0, 1, 2, ... whose rows are their closing price. *)
Definition table_of (closes : list float) : list (Z * float) :=
  imap (fun i v => (Z.of_nat i, v)) closes.

(** A series on the index 0, 1, 2, ... used as price and as oscillator. *)
Definition bars_of (values : list float) : list bar :=
  imap (fun i v => Bar (Z.of_nat i) v v) values.

(** * Properties *)

(** ** IEEE comparison facts *)

Section IEEE.

Lemma SFcompare_refl (f : spec_float) :
  f <> S754_nan -> SFcompare f f = Some Eq.
Proof.
  destruct f as [s|s| |s m e]; intros Hn; try congruence; simpl.
  - reflexivity.
  - destruct s; reflexivity.
  - rewrite Z.compare_refl, Pos.compare_cont_refl. destruct s; reflexivity.
Qed.

Lemma SFcompare_nan_l (f g : spec_float) (c : comparison) :
  SFcompare f g = Some c -> f <> S754_nan /\ g <> S754_nan.
Proof.
  destruct f, g; simpl; intros H; split; congruence.
Qed.

Lemma SFcompare_Lt_asym (f g : spec_float) :
  SFcompare f g = Some Lt -> SFcompare g f = Some Lt -> False.
Proof.
  destruct f as [s1|s1| |s1 m1 e1], g as [s2|s2| |s2 m2 e2]; simpl;
    try congruence; try (destruct s1; congruence); try (destruct s2; congruence);
    try (destruct s1, s2; congruence).
  rewrite (Z.compare_antisym e1 e2).
  pose proof (Pos.compare_cont_antisym m1 m2 Eq) as Hm; simpl in Hm.
  rewrite <- Hm; clear Hm.
  destruct s1, s2; try congruence;
    destruct (e1 ?= e2)%Z; simpl; try congruence;
    destruct (Pos.compare_cont Eq m1 m2); simpl; congruence.
Qed.

Lemma is_nan_Prim2SF (x : float) :
  Prim2SF x <> S754_nan -> is_nan x = false.
Proof.
  intros Hn. unfold is_nan. rewrite FloatAxioms.eqb_spec. unfold SFeqb.
  rewrite SFcompare_refl by assumption. reflexivity.
Qed.

Lemma ltb_not_nan (a b : float) :
  PrimFloat.ltb a b = true -> is_nan a = false /\ is_nan b = false.
Proof.
  rewrite FloatAxioms.ltb_spec. unfold SFltb.
  destruct (SFcompare (Prim2SF a) (Prim2SF b)) as [c|] eqn:E; [|discriminate].
  intros _. apply SFcompare_nan_l in E as [Ha Hb].
  split; apply is_nan_Prim2SF; assumption.
Qed.

Lemma leb_not_nan (a b : float) :
  PrimFloat.leb a b = true -> is_nan a = false /\ is_nan b = false.
Proof.
  rewrite FloatAxioms.leb_spec. unfold SFleb.
  destruct (SFcompare (Prim2SF a) (Prim2SF b)) as [c|] eqn:E; [|discriminate].
  intros _. apply SFcompare_nan_l in E as [Ha Hb].
  split; apply is_nan_Prim2SF; assumption.
Qed.

Lemma ltb_asym (a b : float) :
  PrimFloat.ltb a b = true -> PrimFloat.ltb b a = true -> False.
Proof.
  rewrite !FloatAxioms.ltb_spec. unfold SFltb.
  destruct (SFcompare (Prim2SF a) (Prim2SF b)) as [[]|] eqn:E1; try discriminate.
  destruct (SFcompare (Prim2SF b) (Prim2SF a)) as [[]|] eqn:E2; try discriminate.
  intros _ _. exact (SFcompare_Lt_asym _ _ E1 E2).
Qed.

Lemma is_nan_nan : is_nan nan = true.
Proof. reflexivity. Qed.

End IEEE.

(** ** Slices and subscripts inside the sequence *)

Section PySeq.
Context {A : Type}.
Implicit Types (l : list A) (a b k : Z).

Lemma slice_inside l a b :
  0 <= a -> a <= b -> b <= Py.len l ->
  Py.slice l a b = take (Z.to_nat (b - a)) (drop (Z.to_nat a) l).
Proof.
  intros Ha Hab Hb. unfold Py.slice, Py.bound.
  destruct (Z.ltb_spec a 0); [lia|].
  destruct (Z.ltb_spec b 0); [lia|].
  rewrite !Z.min_l by lia. reflexivity.
Qed.

Lemma slice_all_but_last l :
  Py.slice l 0 (-1) = take (length l - 1) l.
Proof.
  unfold Py.slice, Py.bound, Py.len. simpl.
  rewrite Z.min_l by lia. simpl.
  f_equal. lia.
Qed.

Lemma position_inside (n k : Z) :
  0 <= k < n -> Py.position n k = Ok (Z.to_nat k).
Proof.
  intros Hk. unfold Py.position.
  destruct (Z.ltb_spec k 0); [lia|].
  destruct (Z.leb_spec 0 k); [|lia].
  destruct (Z.ltb_spec k n); [|lia]. reflexivity.
Qed.

Lemma item_inside l k x :
  0 <= k -> l !! Z.to_nat k = Some x -> Py.item l k = Ok x.
Proof.
  intros Hk Hx. unfold Py.item.
  apply lookup_lt_Some in Hx as Hlt.
  rewrite position_inside by (unfold Py.len; lia).
  simpl. rewrite Hx. reflexivity.
Qed.

Lemma item_last l x :
  l !! (length l - 1)%nat = Some x -> Py.item l (-1) = Ok x.
Proof.
  intros Hx. apply lookup_lt_Some in Hx as Hlt.
  unfold Py.item, Py.position, Py.len. simpl.
  destruct (Z.leb_spec 0 (-1 + Z.of_nat (length l))); [|lia].
  destruct (Z.ltb_spec (-1 + Z.of_nat (length l)) (Z.of_nat (length l))); [|lia].
  simpl. replace (Z.to_nat (-1 + Z.of_nat (length l))) with (length l - 1)%nat by lia.
  rewrite Hx. reflexivity.
Qed.

Lemma setitem_inside l k (v : A) :
  0 <= k < Py.len l -> Py.setitem l k v = Ok (<[Z.to_nat k := v]> l).
Proof.
  intros Hk. unfold Py.setitem. rewrite position_inside by assumption.
  reflexivity.
Qed.

Lemma all_take_drop (p : A -> bool) l (n a : nat) :
  Py.all p (take n (drop a l)) = true <->
  forall j x, (a <= j < a + n)%nat -> l !! j = Some x -> p x = true.
Proof.
  unfold Py.all. rewrite forallb_forall. split.
  - intros H j x Hj Hx. apply H.
    apply list_elem_of_In, list_elem_of_lookup. exists (j - a)%nat.
    rewrite lookup_take_lt by lia. rewrite lookup_drop.
    replace (a + (j - a))%nat with j by lia. exact Hx.
  - intros H x Hin.
    apply list_elem_of_In, list_elem_of_lookup in Hin as [k Hk].
    apply lookup_take_Some in Hk as [Hk Hlt]. rewrite lookup_drop in Hk.
    apply (H (a + k)%nat x); [lia | exact Hk].
Qed.

End PySeq.

(** ** The pivot loop *)

Section Pivot.
Variables (osc : list float) (LBL LBR : Z) (highlow : string).
Hypotheses (HL : 0 <= LBL) (HR : 0 <= LBR).

Lemma checkhl_inside (i : Z) :
  LBL <= i < Py.len osc - LBR ->
  checkhl (Py.slice osc (i - LBL) (i + 1)) (Py.slice osc (i + 1) (i + LBR + 1)) highlow
  = Ok (pivot_test highlow osc LBL LBR (Z.to_nat i)).
Proof.
  intros Hi. unfold Py.len in Hi.
  destruct (lookup_lt_is_Some_2 osc (Z.to_nat i)) as [ref Href]; [lia|].
  rewrite !slice_inside by (unfold Py.len; lia).
  replace (Z.to_nat (i + 1 - (i - LBL))) with (S (Z.to_nat LBL)) by lia.
  replace (Z.to_nat (i + LBR + 1 - (i + 1))) with (Z.to_nat LBR) by lia.
  replace (Z.to_nat (i - LBL)) with (Z.to_nat i - Z.to_nat LBL)%nat by lia.
  replace (Z.to_nat (i + 1)) with (S (Z.to_nat i)) by lia.
  set (back := take (S (Z.to_nat LBL)) (drop (Z.to_nat i - Z.to_nat LBL) osc)).
  assert (Hlen : length back = S (Z.to_nat LBL)).
  { unfold back. rewrite length_take, length_drop. lia. }
  assert (Hlast : back !! (length back - 1)%nat = Some ref).
  { rewrite Hlen. unfold back. rewrite lookup_take_lt by lia.
    rewrite lookup_drop. rewrite <- Href. f_equal. lia. }
  unfold checkhl. rewrite (item_last _ _ Hlast). simpl.
  rewrite slice_all_but_last, Hlen.
  replace (take (S (Z.to_nat LBL) - 1) back)
    with (take (Z.to_nat LBL) (drop (Z.to_nat i - Z.to_nat LBL) osc)).
  2:{ unfold back. rewrite take_take. f_equal. lia. }
  unfold pivot_test, window_test. rewrite Href.
  destruct (String.eqb highlow "high"); [reflexivity|].
  destruct (String.eqb highlow "low"); reflexivity.
Qed.

Lemma pivot_step_inside (pivots : list float) (i : Z) :
  LBL <= i < Py.len osc - LBR ->
  length pivots = length osc ->
  pivot_step osc LBL LBR highlow pivots i
  = Ok (if pivot_test highlow osc LBL LBR (Z.to_nat i)
        then <[Z.to_nat i := default nan (osc !! Z.to_nat i)]> pivots
        else pivots).
Proof.
  intros Hi Hlen. unfold pivot_step. rewrite checkhl_inside by assumption.
  simpl. destruct (pivot_test _ _ _ _ _); [|reflexivity].
  unfold Py.len in Hi.
  destruct (lookup_lt_is_Some_2 osc (Z.to_nat i)) as [ref Href]; [lia|].
  rewrite (item_inside osc i ref) by (lia || assumption). simpl.
  rewrite setitem_inside by (unfold Py.len; lia).
  rewrite Href. reflexivity.
Qed.

Lemma pivot_loop (idxs : list Z) :
  forall pivots : list float,
    (forall i, i ∈ idxs -> LBL <= i < Py.len osc - LBR) ->
    length pivots = length osc ->
    exists out,
      for_each (pivot_step osc LBL LBR highlow) idxs pivots = Ok out /\
      length out = length osc /\
      forall j : nat,
        out !! j =
          if bool_decide (Z.of_nat j ∈ idxs) && pivot_test highlow osc LBL LBR j
          then osc !! j else pivots !! j.
Proof.
  induction idxs as [|i idxs IH]; intros pivots Hin Hlen.
  - exists pivots. split; [reflexivity|]. split; [assumption|]. intros j.
    rewrite bool_decide_eq_false_2 by apply not_elem_of_nil. reflexivity.
  - assert (Hi : LBL <= i < Py.len osc - LBR) by (apply Hin; left).
    simpl. rewrite pivot_step_inside by assumption. simpl.
    set (pivots' := if pivot_test highlow osc LBL LBR (Z.to_nat i)
                    then <[Z.to_nat i := default nan (osc !! Z.to_nat i)]> pivots
                    else pivots).
    assert (Hlen' : length pivots' = length osc).
    { unfold pivots'. destruct (pivot_test _ _ _ _ _);
        [rewrite length_insert|]; assumption. }
    destruct (IH pivots') as (out & Hout & Hlo & Hj);
      [intros k Hk; apply Hin; right; exact Hk | assumption |].
    exists out. split; [assumption|]. split; [assumption|]. intros j. rewrite Hj.
    unfold Py.len in Hi.
    destruct (decide (Z.of_nat j ∈ idxs)) as [Hjin|Hjin].
    + rewrite !bool_decide_eq_true_2 by (assumption || (right; assumption)).
      simpl. destruct (pivot_test highlow osc LBL LBR j) eqn:Ht; [reflexivity|].
      unfold pivots'. destruct (pivot_test highlow osc LBL LBR (Z.to_nat i)) eqn:Hti;
        [|reflexivity].
      apply list_lookup_insert_ne. intros Heq. subst j. congruence.
    + rewrite (bool_decide_eq_false_2 _ Hjin). simpl.
      destruct (decide (Z.of_nat j = i)) as [<-|Hne].
      * rewrite bool_decide_eq_true_2 by left. simpl.
        unfold pivots'. rewrite Nat2Z.id.
        destruct (pivot_test highlow osc LBL LBR j); [|reflexivity].
        destruct (lookup_lt_is_Some_2 osc j) as [ref Href]; [lia|].
        rewrite Href. simpl. apply list_lookup_insert_eq. lia.
      * rewrite bool_decide_eq_false_2.
        2:{ intros [?|?]%elem_of_cons; congruence. }
        simpl. unfold pivots'.
        destruct (pivot_test highlow osc LBL LBR (Z.to_nat i)); [|reflexivity].
        apply list_lookup_insert_ne. lia.
Qed.

Lemma pivot_lookup :
  exists out,
    pivot osc LBL LBR highlow = Ok out /\
    length out = length osc /\
    forall j : nat, (j < length osc)%nat ->
      out !! j =
        if bool_decide (LBL <= Z.of_nat j < Py.len osc - LBR)
           && pivot_test highlow osc LBL LBR j
        then osc !! j else Some nan.
Proof.
  unfold pivot.
  destruct (pivot_loop (Py.range LBL (Py.len osc - LBR)) (replicate (length osc) nan))
    as (out & Hout & Hlen & Hj).
  - intros i Hi. unfold Py.range in Hi. apply elem_of_seqZ in Hi. lia.
  - apply length_replicate.
  - exists out. split; [assumption|]. split; [assumption|]. intros j Hjlt. rewrite Hj.
    rewrite lookup_replicate_2 by assumption.
    assert (Heq : bool_decide (Z.of_nat j ∈ Py.range LBL (Py.len osc - LBR))
                  = bool_decide (LBL <= Z.of_nat j < Py.len osc - LBR)).
    { apply bool_decide_ext. unfold Py.range. rewrite elem_of_seqZ. lia. }
    rewrite Heq. reflexivity.
Qed.

End Pivot.

(** ** The pivot rule *)

Lemma window_test_ok (ge gt : float -> float -> bool) (osc : list float)
    (left right : Z) (i : nat) :
  0 <= left -> 0 <= right ->
  bool_decide (left <= Z.of_nat i < Py.len osc - right)
    && window_test ge gt osc left right i = true
  <-> window_ok ge gt osc left right i.
Proof.
  intros HL HR. unfold window_ok, window_test. rewrite andb_true_iff.
  rewrite bool_decide_eq_true. split.
  - intros [Hi Ht]. split; [assumption|].
    destruct (osc !! i) as [ref|] eqn:Href; [|discriminate].
    exists ref. split; [reflexivity|].
    apply andb_true_iff in Ht as [Hb Hf].
    rewrite all_take_drop in Hb. rewrite all_take_drop in Hf.
    split; intros j x Hj Hx; [apply (Hb j x)|apply (Hf j x)]; (lia || assumption).
  - intros [Hi (ref & Href & Hb & Hf)]. split; [assumption|].
    rewrite Href. apply andb_true_iff.
    split; apply all_take_drop; intros j x Hj Hx;
      [apply (Hb j x)|apply (Hf j x)]; (lia || assumption).
Qed.

Lemma window_ok_not_nan (ge gt : float -> float -> bool) (osc : list float)
    (left right : Z) (i : nat) (ref : float) :
  (forall a b, ge a b = true -> is_nan a = false) ->
  (forall a b, gt a b = true -> is_nan a = false) ->
  0 <= left -> 0 <= right -> 0 < left + right ->
  osc !! i = Some ref ->
  window_ok ge gt osc left right i -> is_nan ref = false.
Proof.
  intros Hge Hgt HL HR Hpos Href [Hi (ref' & Href' & Hb & Hf)].
  assert (ref' = ref) by congruence. subst ref'.
  unfold Py.len in Hi.
  destruct (Z.eq_dec left 0) as [->|Hl].
  - destruct (lookup_lt_is_Some_2 osc (S i)) as [x Hx]; [lia|].
    apply (Hgt ref x). apply (Hf (S i) x); [lia | exact Hx].
  - destruct (lookup_lt_is_Some_2 osc (i - 1)%nat) as [x Hx]; [lia|].
    apply (Hge ref x). apply (Hb (i - 1)%nat x); [lia | exact Hx].
Qed.

Lemma pivot_meets_rule (ge gt : float -> float -> bool) (osc : list float)
    (left right : Z) (hl : string) :
  (forall a b, ge a b = true -> is_nan a = false) ->
  (forall a b, gt a b = true -> is_nan a = false) ->
  (forall i, pivot_test hl osc left right i = window_test ge gt osc left right i) ->
  0 <= left -> 0 <= right ->
  exists out, pivot osc left right hl = Ok out /\ pivot_result ge gt osc left right out.
Proof.
  intros Hge Hgt Htest HL HR.
  destruct (pivot_lookup osc left right hl HL HR) as (out & Hout & Hlen & Hj).
  exists out. split; [assumption|]. split; [assumption|].
  intros i ref Href. apply lookup_lt_Some in Href as Hlt.
  specialize (Hj i Hlt). rewrite Htest in Hj.
  pose proof (window_test_ok ge gt osc left right i HL HR) as Hiff.
  destruct (bool_decide (left <= Z.of_nat i < Py.len osc - right)
            && window_test ge gt osc left right i) eqn:Hb.
  - assert (Hok : window_ok ge gt osc left right i) by (apply Hiff; reflexivity).
    rewrite Href in Hj.
    split; [intros _; exact Hj|]. split; [intros Hn; contradiction|].
    intros Hnum. split; [intros _; exact Hok|]. intros _.
    exists ref. split; [exact Hj|].
    destruct Hnum as [Hpos|Hnum]; [|exact Hnum].
    exact (window_ok_not_nan ge gt osc left right i ref Hge Hgt HL HR Hpos Href Hok).
  - assert (Hno : ~ window_ok ge gt osc left right i).
    { intros Hok. apply Hiff in Hok. discriminate. }
    split; [intros Hok; contradiction|]. split; [intros _; exact Hj|].
    intros _. split; [|intros Hok; contradiction].
    intros (v & Hv & Hnan). rewrite Hj in Hv. injection Hv as <-.
    rewrite is_nan_nan in Hnan. discriminate.
Qed.

Lemma pivot_high_rule (osc : list float) (left right : Z) :
  0 <= left -> 0 <= right ->
  exists out, pivot osc left right "high" = Ok out /\ pivot_result fge fgt osc left right out.
Proof.
  apply pivot_meets_rule.
  - intros a b H. exact (proj2 (leb_not_nan b a H)).
  - intros a b H. exact (proj2 (ltb_not_nan b a H)).
  - intros i. reflexivity.
Qed.

Lemma pivot_low_rule (osc : list float) (left right : Z) :
  0 <= left -> 0 <= right ->
  exists out, pivot osc left right "low" = Ok out /\ pivot_result fle flt osc left right out.
Proof.
  apply pivot_meets_rule.
  - intros a b H. exact (proj1 (leb_not_nan a b H)).
  - intros a b H. exact (proj1 (ltb_not_nan a b H)).
  - intros i. reflexivity.
Qed.

(** C1. For non-negative window sizes the pivot detector returns (it does not
    raise) one entry per input position, for kind "high" as for kind "low".
    Position [i] is marked, that is carries the series value [S[i]], if and
    only if [left <= i < len(S) - right], [S[i] >= ] every element of the
    [left] positions before it and [S[i] > ] every element of the [right]
    positions after it ([<=] and [<] for "low"); every other position, in
    particular every position outside [left, len - right), carries NaN. *)
Theorem pivot_marks_window (osc : list float) (left right : Z) :
  0 <= left -> 0 <= right ->
  exists highs lows,
    pivot osc left right "high" = Ok highs /\
    pivot osc left right "low" = Ok lows /\
    pivot_result fge fgt osc left right highs /\
    pivot_result fle flt osc left right lows.
Proof.
  intros HL HR.
  destruct (pivot_high_rule osc left right HL HR) as (highs & Hh & Hrh).
  destruct (pivot_low_rule osc left right HL HR) as (lows & Hl & Hrl).
  exists highs, lows.
  split; [exact Hh|]. split; [exact Hl|]. split; assumption.
Qed.

Lemma pivot_marks_window_witness :
  exists highs lows,
    pivot [1; 5; 2; 8; 3; 1; 9; 2]%float 1 1 "high" = Ok highs /\
    pivot [1; 5; 2; 8; 3; 1; 9; 2]%float 1 1 "low" = Ok lows /\
    pivot_result fge fgt [1; 5; 2; 8; 3; 1; 9; 2]%float 1 1 highs /\
    pivot_result fle flt [1; 5; 2; 8; 3; 1; 9; 2]%float 1 1 lows.
Proof. apply (pivot_marks_window [1; 5; 2; 8; 3; 1; 9; 2]%float 1 1); lia. Defined.

(** The scenario of the specification: highs at 1, 3 and 6, lows at 2 and 5. *)
Example pivot_scenario :
  pivot [1; 5; 2; 8; 3; 1; 9; 2]%float 1 1 "high"
    = Ok [nan; 5; nan; 8; nan; nan; 9; nan]%float /\
  pivot [1; 5; 2; 8; 3; 1; 9; 2]%float 1 1 "low"
    = Ok [nan; nan; 2; nan; nan; 1; nan; nan]%float.
Proof. split; reflexivity. Qed.

(** C7. A series shorter than [left + right + 1] gives a sequence of the same
    length in which every entry is NaN (no pivot anywhere), and the detector
    returns normally. *)
Theorem pivot_short_series (osc : list float) (left right : Z) (hl : string) :
  Py.len osc < left + right + 1 ->
  exists out,
    pivot osc left right hl = Ok out /\
    length out = length osc /\
    forall i, (i < length osc)%nat -> out !! i = Some nan /\ ~ marked out i.
Proof.
  intros Hshort. exists (replicate (length osc) nan).
  split.
  - unfold pivot, Py.range, seqZ.
    replace (Z.to_nat (Py.len osc - right - left)) with 0%nat by lia.
    reflexivity.
  - split; [apply length_replicate|]. intros i Hi.
    split; [apply lookup_replicate_2; exact Hi|].
    intros (v & Hv & Hnan). apply lookup_replicate_1 in Hv as [-> _].
    rewrite is_nan_nan in Hnan. discriminate.
Qed.

Lemma pivot_short_series_witness :
  exists out,
    pivot [1; 5; 2]%float 2 2 "high" = Ok out /\
    length out = length [1; 5; 2]%float /\
    forall i, (i < length [1; 5; 2]%float)%nat -> out !! i = Some nan /\ ~ marked out i.
Proof. apply (pivot_short_series [1; 5; 2]%float 2 2 "high"). reflexivity. Defined.

(** ** Assignment by label *)

Lemma length_set_at {A : Type} (index : list Z) (lbl : Z) (v : A) (col : list A) :
  length col = length index -> length (set_at index lbl v col) = length index.
Proof. intros H. unfold set_at. rewrite length_zip_with. lia. Qed.

Lemma set_at_insert {A : Type} (index : list Z) (lbl : Z) (v : A) (col : list A) (i : nat) :
  NoDup index -> index !! i = Some lbl -> length col = length index ->
  set_at index lbl v col = <[i := v]> col.
Proof.
  intros Hnd Hi Hlen. apply list_eq. intros j. unfold set_at.
  rewrite lookup_zip_with.
  destruct (index !! j) as [t|] eqn:Hj; simpl.
  - destruct (lookup_lt_is_Some_2 col j) as [old Hold].
    { apply lookup_lt_Some in Hj. lia. }
    rewrite Hold. simpl.
    destruct (Z.eqb_spec t lbl) as [->|Hne].
    + assert (i = j) by (eapply NoDup_lookup; eassumption). subst j.
      symmetry. apply list_lookup_insert_eq. apply lookup_lt_Some in Hold. exact Hold.
    + rewrite list_lookup_insert_ne; [symmetry; exact Hold|].
      intros ->. congruence.
  - apply lookup_ge_None in Hj. symmetry. apply lookup_ge_None.
    rewrite length_insert. lia.
Qed.

(** ** The change-point column *)

Section ChangePoints.
Variable n : nat.

Lemma mark_change_point_length (col col' : list Z) (cp : Z) :
  mark_change_point (Z.of_nat n) col cp = Ok col' -> length col' = length col.
Proof.
  unfold mark_change_point, Py.setitem.
  destruct (cp <? Z.of_nat n); [|intros [= <-]; reflexivity].
  destruct (Py.position (Py.len col) cp); simpl; [|discriminate].
  intros [= <-]. apply length_insert.
Qed.

Lemma mark_loop_length (cps : list Z) :
  forall col col',
    for_each (mark_change_point (Z.of_nat n)) cps col = Ok col' ->
    length col' = length col.
Proof.
  induction cps as [|cp cps IH]; intros col col'; simpl.
  - intros [= <-]. reflexivity.
  - destruct (mark_change_point (Z.of_nat n) col cp) as [col1|] eqn:E; simpl;
      [|discriminate].
    intros H. rewrite (IH _ _ H). eapply mark_change_point_length. exact E.
Qed.

(** A breakpoint [cp >= n] is skipped; one below [n] sets the flag of the
    position it refers to. *)
Lemma mark_change_point_inside (col : list Z) (cp : Z) :
  length col = n -> - Z.of_nat n <= cp ->
  mark_change_point (Z.of_nat n) col cp
  = Ok (if cp <? Z.of_nat n
        then <[Z.to_nat (if cp <? 0 then cp + Z.of_nat n else cp) := 1]> col
        else col).
Proof.
  intros Hlen Hcp. unfold mark_change_point.
  destruct (Z.ltb_spec cp (Z.of_nat n)); [|reflexivity].
  unfold Py.setitem, Py.position, Py.len. rewrite Hlen.
  destruct (Z.ltb_spec cp 0).
  - destruct (Z.leb_spec 0 (cp + Z.of_nat n)); [|lia].
    destruct (Z.ltb_spec (cp + Z.of_nat n) (Z.of_nat n)); [|lia]. reflexivity.
  - destruct (Z.leb_spec 0 cp); [|lia].
    destruct (Z.ltb_spec cp (Z.of_nat n)); [|lia]. reflexivity.
Qed.

Lemma mark_loop (cps : list Z) :
  Forall (fun cp => - Z.of_nat n <= cp) cps ->
  forall col, length col = n ->
    exists col',
      for_each (mark_change_point (Z.of_nat n)) cps col = Ok col' /\
      length col' = n /\
      forall i : nat, (i < n)%nat ->
        col' !! i =
          if bool_decide (Exists (fun cp => cp = Z.of_nat i \/ cp + Z.of_nat n = Z.of_nat i) cps)
          then Some 1 else col !! i.
Proof.
  induction 1 as [|cp cps Hcp Hall IH]; intros col Hlen.
  - exists col. split; [reflexivity|]. split; [assumption|]. intros i Hi.
    rewrite bool_decide_eq_false_2; [reflexivity|]. intros H%Exists_nil. exact H.
  - simpl. rewrite mark_change_point_inside by assumption. simpl.
    set (col1 := if cp <? Z.of_nat n
                 then <[Z.to_nat (if cp <? 0 then cp + Z.of_nat n else cp) := 1]> col
                 else col).
    assert (Hlen1 : length col1 = n).
    { unfold col1. destruct (cp <? Z.of_nat n); [rewrite length_insert|]; assumption. }
    destruct (IH col1 Hlen1) as (col' & Hrun & Hlen' & Hlk).
    exists col'. split; [assumption|]. split; [assumption|]. intros i Hi.
    rewrite (Hlk i Hi).
    destruct (decide (Exists (fun cp0 => cp0 = Z.of_nat i \/ cp0 + Z.of_nat n = Z.of_nat i) cps))
      as [Hex|Hex].
    + rewrite !bool_decide_eq_true_2; [reflexivity| |assumption].
      apply Exists_cons. right. assumption.
    + rewrite (bool_decide_eq_false_2 _ Hex).
      destruct (decide (cp = Z.of_nat i \/ cp + Z.of_nat n = Z.of_nat i)) as [Hhit|Hmiss].
      * rewrite bool_decide_eq_true_2 by (apply Exists_cons; left; assumption).
        unfold col1. destruct (Z.ltb_spec cp (Z.of_nat n)); [|lia].
        destruct (Z.ltb_spec cp 0).
        -- replace (Z.to_nat (cp + Z.of_nat n)) with i by lia.
           apply list_lookup_insert_eq. lia.
        -- replace (Z.to_nat cp) with i by lia.
           apply list_lookup_insert_eq. lia.
      * rewrite bool_decide_eq_false_2.
        2:{ intros [?|?]%Exists_cons; contradiction. }
        unfold col1. destruct (Z.ltb_spec cp (Z.of_nat n)); [|reflexivity].
        apply list_lookup_insert_ne.
        destruct (Z.ltb_spec cp 0); lia.
Qed.

End ChangePoints.

(** ** The fusing loop *)

Section Fuse.
Variables (index : list Z) (highs lows : list float) (cps : list Z) (cp_window : Z).
Hypotheses (Hhighs : length highs = length index) (Hlows : length lows = length index).

Lemma fuse_step_inside (st : list bool * list bool) (i : Z) :
  0 <= i < Py.len index ->
  fuse_step index highs lows cps cp_window st i
  = Ok (raise_flag index cps cp_window lows (fst st) i,
        raise_flag index cps cp_window highs (snd st) i).
Proof.
  intros Hi. unfold Py.len in Hi. destruct st as [buy sell].
  unfold fuse_step, raise_flag, eligible, near_change_point. simpl.
  rewrite (Z2Nat.id i) by lia.
  destruct (0 <? Py.sum _); simpl; [|reflexivity].
  destruct (lookup_lt_is_Some_2 lows (Z.to_nat i)) as [low Hlow]; [lia|].
  destruct (lookup_lt_is_Some_2 highs (Z.to_nat i)) as [high Hhigh]; [lia|].
  destruct (lookup_lt_is_Some_2 index (Z.to_nat i)) as [lbl Hlbl]; [lia|].
  rewrite (item_inside lows i low), (item_inside highs i high) by (lia || assumption).
  rewrite Hlow, Hhigh, Hlbl. simpl.
  rewrite (item_inside index i lbl) by (lia || assumption).
  destruct (is_nan low), (is_nan high); reflexivity.
Qed.

Lemma fuse_loop (idxs : list Z) :
  (forall i, i ∈ idxs -> 0 <= i < Py.len index) ->
  forall st,
    for_each (fuse_step index highs lows cps cp_window) idxs st
    = Ok (foldl (raise_flag index cps cp_window lows) (fst st) idxs,
          foldl (raise_flag index cps cp_window highs) (snd st) idxs).
Proof.
  induction idxs as [|i idxs IH]; intros Hin st.
  - destruct st; reflexivity.
  - simpl. rewrite fuse_step_inside by (apply Hin; left). simpl.
    rewrite IH by (intros k Hk; apply Hin; right; exact Hk). reflexivity.
Qed.

End Fuse.

Section Flags.
Variables (index : list Z) (cps : list Z) (cp_window : Z) (marks : list float).
Hypothesis Hnodup : NoDup index.

Lemma raise_flag_insert (col : list bool) (i : Z) :
  0 <= i < Py.len index -> length col = length index ->
  raise_flag index cps cp_window marks col i
  = if eligible cps cp_window (Py.len index) marks (Z.to_nat i)
    then <[Z.to_nat i := true]> col else col.
Proof.
  intros Hi Hlen. unfold raise_flag, Py.len in *.
  destruct (eligible _ _ _ _ _); [|reflexivity].
  destruct (lookup_lt_is_Some_2 index (Z.to_nat i)) as [lbl Hlbl]; [lia|].
  rewrite Hlbl. simpl. apply set_at_insert; assumption.
Qed.

Lemma raise_flags_lookup (idxs : list Z) :
  (forall i, i ∈ idxs -> 0 <= i < Py.len index) ->
  forall col, length col = length index ->
    length (foldl (raise_flag index cps cp_window marks) col idxs) = length index /\
    forall j : nat, (j < length index)%nat ->
      foldl (raise_flag index cps cp_window marks) col idxs !! j =
        if bool_decide (Z.of_nat j ∈ idxs)
           && eligible cps cp_window (Py.len index) marks j
        then Some true else col !! j.
Proof.
  induction idxs as [|i idxs IH]; intros Hin col Hlen.
  - split; [assumption|]. intros j Hj.
    rewrite bool_decide_eq_false_2 by apply not_elem_of_nil. reflexivity.
  - assert (Hi : 0 <= i < Py.len index) by (apply Hin; left).
    simpl. rewrite raise_flag_insert by assumption.
    set (col1 := if eligible cps cp_window (Py.len index) marks (Z.to_nat i)
                 then <[Z.to_nat i := true]> col else col).
    assert (Hlen1 : length col1 = length index).
    { unfold col1. destruct (eligible _ _ _ _ _); [rewrite length_insert|]; assumption. }
    destruct (IH (fun k Hk => Hin k (proj2 (elem_of_cons idxs k i) (or_intror Hk)))
                 col1 Hlen1) as [Hl Hlk].
    split; [assumption|]. intros j Hj. rewrite (Hlk j Hj).
    unfold Py.len in Hi.
    destruct (decide (Z.of_nat j ∈ idxs)) as [Hjin|Hjin].
    + rewrite !bool_decide_eq_true_2 by (assumption || (right; assumption)).
      simpl. destruct (eligible cps cp_window (Py.len index) marks j) eqn:Ej;
        [reflexivity|].
      unfold col1.
      destruct (eligible cps cp_window (Py.len index) marks (Z.to_nat i)) eqn:Ei;
        [|reflexivity].
      apply list_lookup_insert_ne. intros Heq. subst j. congruence.
    + rewrite (bool_decide_eq_false_2 _ Hjin). simpl.
      destruct (decide (Z.of_nat j = i)) as [<-|Hne].
      * rewrite bool_decide_eq_true_2 by left. simpl.
        unfold col1. rewrite Nat2Z.id.
        destruct (eligible cps cp_window (Py.len index) marks j); [|reflexivity].
        apply list_lookup_insert_eq. lia.
      * rewrite bool_decide_eq_false_2.
        2:{ intros [?|?]%elem_of_cons; congruence. }
        simpl. unfold col1.
        destruct (eligible cps cp_window (Py.len index) marks (Z.to_nat i));
          [|reflexivity].
        apply list_lookup_insert_ne. lia.
Qed.

(** The flag column after the whole loop, started from [False] everywhere. *)
Lemma raise_flags_all (j : nat) :
  (j < length index)%nat ->
  foldl (raise_flag index cps cp_window marks)
        (replicate (length index) false) (Py.range 0 (Py.len index)) !! j
  = Some (eligible cps cp_window (Py.len index) marks j).
Proof.
  intros Hj.
  destruct (raise_flags_lookup (Py.range 0 (Py.len index))) with
    (col := replicate (length index) false) as [_ Hlk].
  - intros i Hi. unfold Py.range in Hi. apply elem_of_seqZ in Hi. lia.
  - apply length_replicate.
  - rewrite (Hlk j Hj). rewrite bool_decide_eq_true_2.
    2:{ unfold Py.range, Py.len. apply elem_of_seqZ. lia. }
    simpl. destruct (eligible _ _ _ _ _); [reflexivity|].
    apply lookup_replicate_2. exact Hj.
Qed.

End Flags.

(** ** [generate_signals], unfolded *)

Section GenerateSignals.
Variable Pelt_fit_predict : string -> list float -> Z -> res (list Z).
Variables (bars : list bar) (LBL LBR cp_penalty : Z) (cp_model : string) (cp_window : Z).

Lemma generate_signals_inv (frame : SignalFrame) :
  generate_signals Pelt_fit_predict bars LBL LBR cp_penalty cp_model cp_window = Ok frame ->
  exists highs lows breaks cps,
    pivot (osc_value <$> bars) LBL LBR "high" = Ok highs /\
    pivot (osc_value <$> bars) LBL LBR "low" = Ok lows /\
    length highs = length bars /\
    length lows = length bars /\
    Pelt_fit_predict cp_model (price_value <$> bars) cp_penalty = Ok breaks /\
    for_each (mark_change_point (Py.len bars)) breaks (replicate (length bars) 0) = Ok cps /\
    length cps = length bars /\
    frame = fused_frame bars highs lows cps cp_window.
Proof.
  unfold generate_signals, detect_change_points, column, Py.len.
  rewrite !length_fmap.
  destruct (pivot (osc_value <$> bars) LBL LBR "high") as [highs|] eqn:Eh;
    simpl; [|discriminate].
  destruct (pivot (osc_value <$> bars) LBL LBR "low") as [lows|] eqn:El;
    simpl; [|discriminate].
  destruct (decide (length highs = length bars)) as [Hh|]; simpl; [|discriminate].
  destruct (decide (length lows = length bars)) as [Hl|]; simpl; [|discriminate].
  destruct (Pelt_fit_predict cp_model (price_value <$> bars) cp_penalty)
    as [breaks|] eqn:Eb; simpl; [|discriminate].
  destruct (for_each (mark_change_point (Z.of_nat (length bars))) breaks
              (replicate (length bars) 0)) as [cps|] eqn:Ec; simpl; [|discriminate].
  replace (Z.of_nat (length bars)) with (Py.len (label <$> bars))
    by (unfold Py.len; rewrite length_fmap; reflexivity).
  rewrite fuse_loop.
  - simpl. intros [= <-]. exists highs, lows, breaks, cps.
    assert (Hc : length cps = length bars).
    { apply mark_loop_length in Ec. rewrite Ec. apply length_replicate. }
    split_and!; try (reflexivity || assumption).
    + unfold Py.len. rewrite length_fmap. exact Ec.
    + unfold fused_frame. rewrite !length_fmap. reflexivity.
  - rewrite length_fmap. assumption.
  - rewrite length_fmap. assumption.
  - intros i Hi. unfold Py.range in Hi. apply elem_of_seqZ in Hi. lia.
Qed.

Lemma generate_signals_run (highs lows : list float) (breaks cps : list Z) :
  pivot (osc_value <$> bars) LBL LBR "high" = Ok highs ->
  pivot (osc_value <$> bars) LBL LBR "low" = Ok lows ->
  length highs = length bars ->
  length lows = length bars ->
  Pelt_fit_predict cp_model (price_value <$> bars) cp_penalty = Ok breaks ->
  for_each (mark_change_point (Py.len bars)) breaks (replicate (length bars) 0) = Ok cps ->
  generate_signals Pelt_fit_predict bars LBL LBR cp_penalty cp_model cp_window
  = Ok (fused_frame bars highs lows cps cp_window).
Proof.
  intros Eh El Hh Hl Eb Ec.
  unfold generate_signals, detect_change_points, column, Py.len in *.
  rewrite !length_fmap. rewrite Eh, El. simpl.
  rewrite !decide_True by assumption. simpl.
  rewrite Eb. simpl. rewrite Ec. simpl.
  replace (Z.of_nat (length bars)) with (Py.len (label <$> bars))
    by (unfold Py.len; rewrite length_fmap; reflexivity).
  rewrite fuse_loop.
  - simpl. unfold fused_frame. rewrite !length_fmap. reflexivity.
  - rewrite length_fmap. assumption.
  - rewrite length_fmap. assumption.
  - intros i Hi. unfold Py.range in Hi. apply elem_of_seqZ in Hi. lia.
Qed.

End GenerateSignals.

(** ** Rows of the fused frame *)

Section FusedFrame.
Variables (bars : list bar) (highs lows : list float) (cps : list Z) (cp_window : Z).

Lemma length_fused_frame :
  length (fused_frame bars highs lows cps cp_window) = length bars.
Proof. unfold fused_frame, frame_of. rewrite length_imap, length_fmap. reflexivity. Qed.

Lemma fused_frame_signal (i : nat) (lbl : Z) (row : SignalRow) :
  fused_frame bars highs lows cps cp_window !! i = Some (lbl, row) ->
  signal row = get_signal (buy_signal row) (sell_signal row).
Proof.
  unfold fused_frame, frame_of. cbv zeta. rewrite list_lookup_imap.
  destruct ((label <$> bars) !! i); simpl; [|discriminate].
  intros [= <- <-]. reflexivity.
Qed.

Hypotheses (Hhighs : length highs = length bars) (Hlows : length lows = length bars)
           (Hcps : length cps = length bars).

Lemma fused_frame_change_points :
  (fun r : Z * SignalRow => change_point r.2) <$> fused_frame bars highs lows cps cp_window
  = cps.
Proof.
  apply list_eq. intros i. unfold fused_frame, frame_of. cbv zeta.
  rewrite list_lookup_fmap, list_lookup_imap, !list_lookup_fmap.
  destruct (bars !! i) as [b|] eqn:Hb; simpl.
  - destruct (lookup_lt_is_Some_2 cps i) as [cp Hcp].
    { apply lookup_lt_Some in Hb. lia. }
    rewrite Hcp. reflexivity.
  - symmetry. apply lookup_ge_None. apply lookup_ge_None in Hb. lia.
Qed.

Lemma fused_frame_pivots (i : nat) (lbl : Z) (row : SignalRow) :
  fused_frame bars highs lows cps cp_window !! i = Some (lbl, row) ->
  highs !! i = Some (pvtHigh row) /\ lows !! i = Some (pvtLow row) /\
  cps !! i = Some (change_point row).
Proof.
  unfold fused_frame, frame_of. cbv zeta.
  rewrite list_lookup_imap, !list_lookup_fmap.
  destruct (bars !! i) as [b|] eqn:Hb; simpl; [|discriminate].
  apply lookup_lt_Some in Hb.
  destruct (lookup_lt_is_Some_2 highs i) as [high Hhigh]; [lia|].
  destruct (lookup_lt_is_Some_2 lows i) as [low Hlow]; [lia|].
  destruct (lookup_lt_is_Some_2 cps i) as [cp Hcp]; [lia|].
  rewrite Hhigh, Hlow, Hcp. intros [= <- <-]. simpl. auto.
Qed.

Hypothesis Hnodup : NoDup (label <$> bars).

Lemma fused_frame_flags (i : nat) (lbl : Z) (row : SignalRow) :
  fused_frame bars highs lows cps cp_window !! i = Some (lbl, row) ->
  buy_signal row = eligible cps cp_window (Py.len bars) lows i /\
  sell_signal row = eligible cps cp_window (Py.len bars) highs i.
Proof.
  unfold fused_frame, frame_of. cbv zeta.
  rewrite list_lookup_imap, !list_lookup_fmap.
  destruct (bars !! i) as [b|] eqn:Hb; simpl; [|discriminate].
  apply lookup_lt_Some in Hb.
  assert (Hi : (i < length (label <$> bars))%nat) by (rewrite length_fmap; exact Hb).
  rewrite !(raise_flags_all _ _ _ _ Hnodup i Hi).
  replace (Py.len (label <$> bars)) with (Py.len bars)
    by (unfold Py.len; rewrite length_fmap; reflexivity).
  intros [= <- <-]. simpl. auto.
Qed.

(** For a non-negative [cp_window] the slice the loop sums is the window
    [max(0, i - w) .. min(n - 1, i + w)] of the change-point column. *)
Lemma near_change_point_window (i : nat) :
  0 <= cp_window -> (i < length bars)%nat ->
  near_change_point cps cp_window (Py.len bars) i
  = (0 <? flags_between (fused_frame bars highs lows cps cp_window)
            (Z.max 0 (Z.of_nat i - cp_window))
            (Z.min (Py.len bars - 1) (Z.of_nat i + cp_window))).
Proof.
  intros Hw Hi. unfold near_change_point, flags_between, Py.len.
  rewrite fmap_take, fmap_drop, fused_frame_change_points.
  rewrite slice_inside by (unfold Py.len; lia).
  do 3 f_equal. lia.
Qed.

End FusedFrame.

(** ** The signal fuser *)

Lemma generate_signals_total
    (Pelt_fit_predict : string -> list float -> Z -> res (list Z))
    (bars : list bar) (LBL LBR cp_penalty : Z) (cp_model : string) (cp_window : Z)
    (breaks : list Z) :
  0 <= LBL -> 0 <= LBR ->
  Pelt_fit_predict cp_model (price_value <$> bars) cp_penalty = Ok breaks ->
  Forall (fun cp => - Py.len bars <= cp) breaks ->
  exists highs lows cps,
    length highs = length bars /\ length lows = length bars /\
    length cps = length bars /\
    (forall i : nat, (i < length bars)%nat ->
       cps !! i =
         Some (if bool_decide (Exists (fun cp => cp = Z.of_nat i \/ cp + Py.len bars = Z.of_nat i)
                                      breaks)
               then 1 else 0)) /\
    generate_signals Pelt_fit_predict bars LBL LBR cp_penalty cp_model cp_window
      = Ok (fused_frame bars highs lows cps cp_window).
Proof.
  intros HL HR Hsolver Hbreaks.
  destruct (pivot_lookup (osc_value <$> bars) LBL LBR "high" HL HR)
    as (highs & Eh & Hh & _).
  destruct (pivot_lookup (osc_value <$> bars) LBL LBR "low" HL HR)
    as (lows & El & Hl & _).
  rewrite length_fmap in Hh, Hl.
  destruct (mark_loop (length bars) breaks Hbreaks (replicate (length bars) 0))
    as (cps & Ec & Hc & Hlk); [apply length_replicate|].
  exists highs, lows, cps. split_and!; try assumption.
  - intros i Hi. rewrite (Hlk i Hi). unfold Py.len.
    destruct (bool_decide _); [reflexivity|]. apply lookup_replicate_2. exact Hi.
  - apply (generate_signals_run _ _ _ _ _ _ _ highs lows breaks cps); assumption.
Qed.


(** C2. In the frame [generate_signals] returns, the window summed for row [i]
    is [max(0, i - w) .. min(len - 1, i + w)], which lies inside the frame;
    the row is buy-eligible if and only if the change-point flags of that
    window sum to more than 0 and its pivot-low entry is a number, and
    sell-eligible if and only if the sum is more than 0 and its pivot-high
    entry is a number.  The frame is returned (no access out of range) for
    non-negative window sizes, distinct index labels and breakpoints that
    refer to a position of the series, from either end, or lie beyond its
    end. *)
Theorem signals_near_change_point
    (Pelt_fit_predict : string -> list float -> Z -> res (list Z))
    (bars : list bar) (LBL LBR cp_penalty : Z) (cp_model : string) (cp_window : Z)
    (breaks : list Z) :
  0 <= LBL -> 0 <= LBR -> 0 <= cp_window ->
  NoDup (label <$> bars) ->
  Pelt_fit_predict cp_model (price_value <$> bars) cp_penalty = Ok breaks ->
  Forall (fun cp => - Py.len bars <= cp) breaks ->
  exists frame,
    generate_signals Pelt_fit_predict bars LBL LBR cp_penalty cp_model cp_window
      = Ok frame /\
    length frame = length bars /\
    forall i lbl row, frame !! i = Some (lbl, row) ->
      let window_start := Z.max 0 (Z.of_nat i - cp_window) in
      let window_end := Z.min (Py.len frame - 1) (Z.of_nat i + cp_window) in
      0 <= window_start <= Z.of_nat i /\
      Z.of_nat i <= window_end <= Py.len frame - 1 /\
      (buy_signal row = true <->
         0 < flags_between frame window_start window_end /\ is_nan (pvtLow row) = false) /\
      (sell_signal row = true <->
         0 < flags_between frame window_start window_end /\ is_nan (pvtHigh row) = false).
Proof.
  intros HL HR Hw Hnd Hsolver Hbreaks.
  destruct (generate_signals_total Pelt_fit_predict bars LBL LBR cp_penalty cp_model
              cp_window breaks HL HR Hsolver Hbreaks)
    as (highs & lows & cps & Hh & Hl & Hc & _ & Hrun).
  exists (fused_frame bars highs lows cps cp_window).
  split; [exact Hrun|].
  split; [apply length_fused_frame|].
  intros i lbl row Hrow. cbv zeta.
  assert (Hi : (i < length bars)%nat).
  { apply lookup_lt_Some in Hrow. rewrite length_fused_frame in Hrow. exact Hrow. }
  replace (Py.len (fused_frame bars highs lows cps cp_window)) with (Py.len bars)
    by (unfold Py.len; rewrite length_fused_frame; reflexivity).
  destruct (fused_frame_flags bars highs lows cps cp_window Hnd i lbl row Hrow)
    as [Hbuy Hsell].
  destruct (fused_frame_pivots bars highs lows cps cp_window Hh Hl Hc i lbl row Hrow)
    as (Hhigh & Hlow & _).
  pose proof (near_change_point_window bars highs lows cps cp_window Hh Hl Hc i Hw Hi)
    as Hnear.
  unfold eligible in Hbuy, Hsell. rewrite Hnear in Hbuy, Hsell.
  rewrite Hlow in Hbuy. rewrite Hhigh in Hsell. simpl in Hbuy, Hsell.
  unfold Py.len in *.
  split; [lia|]. split; [lia|].
  rewrite Hbuy, Hsell, !andb_true_iff, !negb_true_iff, Z.ltb_lt. tauto.
Qed.

Lemma signals_near_change_point_witness :
  exists frame,
    generate_signals (Pelt_answers [3]) (bars_of [1; 5; 2; 8; 3; 1; 9; 2]%float)
                     1 1 10 "rbf" 1 = Ok frame /\
    length frame = length (bars_of [1; 5; 2; 8; 3; 1; 9; 2]%float) /\
    forall i lbl row, frame !! i = Some (lbl, row) ->
      let window_start := Z.max 0 (Z.of_nat i - 1) in
      let window_end := Z.min (Py.len frame - 1) (Z.of_nat i + 1) in
      0 <= window_start <= Z.of_nat i /\
      Z.of_nat i <= window_end <= Py.len frame - 1 /\
      (buy_signal row = true <->
         0 < flags_between frame window_start window_end /\ is_nan (pvtLow row) = false) /\
      (sell_signal row = true <->
         0 < flags_between frame window_start window_end /\ is_nan (pvtHigh row) = false).
Proof.
  apply (signals_near_change_point (Pelt_answers [3])
           (bars_of [1; 5; 2; 8; 3; 1; 9; 2]%float) 1 1 10 "rbf" 1 [3; 8]).
  - lia.
  - lia.
  - lia.
  - apply (bool_decide_unpack _). vm_compute. exact I.
  - reflexivity.
  - repeat constructor; vm_compute; discriminate.
Defined.

(** The scenario of the specification: a pivot low at position 10, a change
    point at position 12 and a proximity window of 3 make position 10
    buy-eligible. *)
Example buy_near_change_point :
  exists frame row,
    generate_signals (Pelt_answers [12])
      (bars_of [9; 8; 7; 6; 5; 4; 5; 4; 3; 2; 1; 2; 3; 4; 5; 6]%float)
      3 3 10 "rbf" 3 = Ok frame /\
    frame !! 10%nat = Some (10, row) /\
    pvtLow row = 1%float /\ buy_signal row = true /\ signal row = "buy".
Proof. eexists _, _. split; [reflexivity|]. split; [reflexivity|]. auto. Qed.

(** C3. Every row of the frame [generate_signals] returns is labelled "buy"
    exactly when it is buy-eligible and not sell-eligible, "sell" exactly when
    it is sell-eligible and not buy-eligible, and "hold" in the two remaining
    cases, both flags or none. *)
Theorem label_of_flags
    (Pelt_fit_predict : string -> list float -> Z -> res (list Z))
    (bars : list bar) (LBL LBR cp_penalty : Z) (cp_model : string) (cp_window : Z)
    (frame : SignalFrame) (i : nat) (lbl : Z) (row : SignalRow) :
  generate_signals Pelt_fit_predict bars LBL LBR cp_penalty cp_model cp_window
    = Ok frame ->
  frame !! i = Some (lbl, row) ->
  (signal row = "buy" <-> buy_signal row = true /\ sell_signal row = false) /\
  (signal row = "sell" <-> sell_signal row = true /\ buy_signal row = false) /\
  (signal row = "hold" <->
     (buy_signal row = true /\ sell_signal row = true) \/
     (buy_signal row = false /\ sell_signal row = false)).
Proof.
  intros Hrun Hrow.
  apply generate_signals_inv in Hrun
    as (highs & lows & breaks & cps & _ & _ & _ & _ & _ & _ & _ & ->).
  apply fused_frame_signal in Hrow. rewrite Hrow. unfold get_signal.
  destruct (buy_signal row), (sell_signal row); simpl;
    repeat split; (discriminate || tauto || (intros; intuition discriminate)).
Qed.

Lemma label_of_flags_witness :
  let row := {| price := 2; osc := 2; pvtHigh := nan; pvtLow := 2; change_point := 0;
                buy_signal := true; sell_signal := false; signal := "buy" |}%float in
  (signal row = "buy" <-> buy_signal row = true /\ sell_signal row = false) /\
  (signal row = "sell" <-> sell_signal row = true /\ buy_signal row = false) /\
  (signal row = "hold" <->
     (buy_signal row = true /\ sell_signal row = true) \/
     (buy_signal row = false /\ sell_signal row = false)).
Proof.
  eapply (label_of_flags (Pelt_answers [3]) (bars_of [1; 5; 2; 8; 3; 1; 9; 2]%float)
            1 1 10 "rbf" 1 _ 2%nat 2).
  - reflexivity.
  - reflexivity.
Defined.

(** ** High and low marks exclude each other *)

Lemma window_high_low (osc : list float) (left right : Z) (i : nat) :
  1 <= right ->
  window_ok fge fgt osc left right i -> window_ok fle flt osc left right i -> False.
Proof.
  intros HR [Hi (ref & Href & _ & Hf)] [_ (ref' & Href' & _ & Hf')].
  assert (ref' = ref) by congruence. subst ref'.
  unfold Py.len in Hi.
  destruct (lookup_lt_is_Some_2 osc (S i)) as [x Hx]; [lia|].
  assert (Hgt : fgt ref x = true) by (apply (Hf (S i) x); [lia | exact Hx]).
  assert (Hlt : flt ref x = true) by (apply (Hf' (S i) x); [lia | exact Hx]).
  unfold fgt, flt in *. exact (ltb_asym _ _ Hlt Hgt).
Qed.

Lemma marked_lookup (p : list float) (i : nat) :
  marked p i <-> negb (is_nan (default nan (p !! i))) = true.
Proof.
  unfold marked. rewrite negb_true_iff. split.
  - intros (v & -> & Hv). exact Hv.
  - destruct (p !! i) as [v|]; simpl; [intros Hv; exists v; auto|].
    rewrite is_nan_nan. discriminate.
Qed.

Lemma pivot_high_low_disjoint (osc : list float) (left right : Z)
    (highs lows : list float) (i : nat) :
  0 <= left -> 1 <= right ->
  pivot osc left right "high" = Ok highs ->
  pivot osc left right "low" = Ok lows ->
  ~ (marked highs i /\ marked lows i).
Proof.
  intros HL HR Eh El [Mh Ml].
  assert (HR0 : 0 <= right) by lia.
  destruct (pivot_high_rule osc left right HL HR0) as (highs' & Eh' & Rh).
  destruct (pivot_low_rule osc left right HL HR0) as (lows' & El' & Rl).
  assert (highs' = highs) by congruence. assert (lows' = lows) by congruence.
  subst highs' lows'.
  destruct Rh as [Lh Rh], Rl as [Ll Rl].
  assert (Hi : (i < length osc)%nat).
  { destruct Mh as (v & Hv & _). apply lookup_lt_Some in Hv. lia. }
  destruct (lookup_lt_is_Some_2 osc i) as [ref Href]; [exact Hi|].
  destruct (Rh i ref Href) as (_ & _ & Hh). destruct (Rl i ref Href) as (_ & _ & Hl).
  apply (window_high_low osc left right i HR).
  - apply Hh; [left; lia | exact Mh].
  - apply Hl; [left; lia | exact Ml].
Qed.

Lemma flags_exclusive
    (Pelt_fit_predict : string -> list float -> Z -> res (list Z))
    (bars : list bar) (LBL LBR cp_penalty : Z) (cp_model : string) (cp_window : Z)
    (frame : SignalFrame) (i : nat) (lbl : Z) (row : SignalRow) :
  0 <= LBL -> 1 <= LBR ->
  NoDup (label <$> bars) ->
  generate_signals Pelt_fit_predict bars LBL LBR cp_penalty cp_model cp_window
    = Ok frame ->
  frame !! i = Some (lbl, row) ->
  ~ (buy_signal row = true /\ sell_signal row = true) /\
  (buy_signal row = true \/ sell_signal row = true ->
   signal row = "buy" \/ signal row = "sell").
Proof.
  intros HL HR Hnd Hrun Hrow.
  apply generate_signals_inv in Hrun
    as (highs & lows & breaks & cps & Eh & El & Hh & Hl & _ & _ & Hc & ->).
  destruct (fused_frame_flags bars highs lows cps cp_window Hnd i lbl row Hrow)
    as [Hbuy Hsell].
  assert (Hboth : ~ (buy_signal row = true /\ sell_signal row = true)).
  { intros [Hb Hs]. rewrite Hb in Hbuy. rewrite Hs in Hsell.
    symmetry in Hbuy, Hsell. unfold eligible in Hbuy, Hsell.
    apply andb_true_iff in Hbuy as [_ Hlow]. apply andb_true_iff in Hsell as [_ Hhigh].
    apply (pivot_high_low_disjoint (osc_value <$> bars) LBL LBR highs lows i
             HL HR Eh El).
    split; apply marked_lookup; assumption. }
  split; [exact Hboth|].
  apply fused_frame_signal in Hrow. rewrite Hrow. unfold get_signal.
  destruct (buy_signal row), (sell_signal row); simpl.
  - exfalso. apply Hboth. auto.
  - intros _. left. reflexivity.
  - intros _. right. reflexivity.
  - intros [?|?]; discriminate.
Qed.

(** C10. With a right window of at least one bar (and a non-negative left
    window) no position is marked by both the high pass and the low pass of
    the pivot detector.  Hence, for distinct index labels, no row of the frame
    of [generate_signals] has [buy_signal] and [sell_signal] both true, and
    every row with one of the two flags, the rows [get_pvt_signals] selects as
    active, is labelled "buy" or "sell". *)
Theorem high_low_exclusive (left right : Z) :
  0 <= left -> 1 <= right ->
  (forall (osc : list float) (highs lows : list float),
     pivot osc left right "high" = Ok highs ->
     pivot osc left right "low" = Ok lows ->
     forall i, ~ (marked highs i /\ marked lows i)) /\
  (forall (Pelt_fit_predict : string -> list float -> Z -> res (list Z))
          (bars : list bar) (cp_penalty : Z) (cp_model : string) (cp_window : Z)
          (frame : SignalFrame),
     NoDup (label <$> bars) ->
     generate_signals Pelt_fit_predict bars left right cp_penalty cp_model cp_window
       = Ok frame ->
     forall i lbl row, frame !! i = Some (lbl, row) ->
       ~ (buy_signal row = true /\ sell_signal row = true) /\
       (buy_signal row = true \/ sell_signal row = true ->
        signal row = "buy" \/ signal row = "sell")).
Proof.
  intros HL HR. split.
  - intros osc highs lows Eh El i.
    exact (pivot_high_low_disjoint osc left right highs lows i HL HR Eh El).
  - intros solver bars pen model w frame Hnd Hrun i lbl row Hrow.
    exact (flags_exclusive solver bars left right pen model w frame i lbl row
             HL HR Hnd Hrun Hrow).
Qed.

Lemma high_low_exclusive_witness :
  ~ (marked [nan; 5; nan; 8; nan; nan; 9; nan]%float 3
     /\ marked [nan; nan; 2; nan; nan; 1; nan; nan]%float 3) /\
  let row := {| price := 8; osc := 8; pvtHigh := 8; pvtLow := nan; change_point := 1;
                buy_signal := false; sell_signal := true; signal := "sell" |}%float in
  ~ (buy_signal row = true /\ sell_signal row = true) /\
  (buy_signal row = true \/ sell_signal row = true ->
   signal row = "buy" \/ signal row = "sell").
Proof.
  assert (H0 : 0 <= 1) by lia. assert (H1 : 1 <= 1) by lia.
  destruct (high_low_exclusive 1 1 H0 H1) as [Hpivot Hframe].
  split.
  - apply (Hpivot [1; 5; 2; 8; 3; 1; 9; 2]%float); reflexivity.
  - assert (Hnd : NoDup (label <$> bars_of [1; 5; 2; 8; 3; 1; 9; 2]%float)).
    { apply (bool_decide_unpack _). vm_compute. exact I. }
    exact (Hframe (Pelt_answers [3]) (bars_of [1; 5; 2; 8; 3; 1; 9; 2]%float)
             10 "rbf" 1 _ Hnd eq_refl 3%nat 3 _ eq_refl).
Defined.

(** ** The left join *)

Section Merge.
Context {A B : Type}.
Implicit Types (original : list (Z * A)) (fused : list (Z * B)).

(** The rows one row of the left table contributes. *)
Lemma merge_left_cons (la : Z * A) original fused :
  merge_left (la :: original) fused
  = (match filter (fun rb : Z * B => rb.1 = la.1) fused with
     | [] => [(la.1, la.2, None)]
     | matches => (fun rb : Z * B => (la.1, la.2, Some rb.2)) <$> matches
     end ++ merge_left original fused)%list.
Proof. reflexivity. Qed.

Lemma matches_unique fused (t : Z) :
  NoDup fused.*1 ->
  filter (fun rb : Z * B => rb.1 = t) fused = [] \/
  exists b, filter (fun rb : Z * B => rb.1 = t) fused = [(t, b)].
Proof.
  induction fused as [|[t' b'] fused IH]; intros Hnd; [left; reflexivity|].
  simpl in Hnd. apply NoDup_cons in Hnd as [Hnotin Hnd].
  rewrite filter_cons. simpl. destruct (decide (t' = t)) as [->|Hne].
  - right. exists b'. f_equal.
    destruct (filter (fun rb : Z * B => rb.1 = t) fused) as [|[t1 b1] rest] eqn:E;
      [reflexivity|].
    exfalso. apply Hnotin.
    assert (Hin : (t1, b1) ∈ filter (fun rb : Z * B => rb.1 = t) fused)
      by (rewrite E; left).
    apply list_elem_of_filter in Hin as [Hkey Hin]. simpl in Hkey. subst t1.
    apply list_elem_of_fmap. exists (t, b1). split; [reflexivity | exact Hin].
  - apply IH. exact Hnd.
Qed.

Lemma merge_left_rows original fused :
  (fun m : Z * A * option B => m.1) <$> merge_left original fused
  = original ≫= (fun la =>
      replicate (Nat.max 1 (length (filter (fun rb : Z * B => rb.1 = la.1) fused))) la).
Proof.
  induction original as [|[t a] original IH]; [reflexivity|].
  rewrite merge_left_cons, fmap_app, IH, bind_cons. f_equal. cbn [fst snd].
  assert (Hrep : forall l : list (Z * B),
            (fun m : Z * A * option B => m.1)
              <$> ((fun rb : Z * B => (t, a, Some rb.2)) <$> l)
            = replicate (length l) (t, a)).
  { induction l as [|y l IHl]; [reflexivity|]. simpl. f_equal. exact IHl. }
  destruct (filter (fun rb : Z * B => rb.1 = t) fused) as [|rb rest]; [reflexivity|].
  rewrite Hrep. reflexivity.
Qed.

Lemma merge_left_rows_unique original fused :
  NoDup fused.*1 ->
  (fun m : Z * A * option B => m.1) <$> merge_left original fused = original.
Proof.
  intros Hnd. rewrite merge_left_rows.
  induction original as [|la original IH]; [reflexivity|].
  rewrite bind_cons, IH.
  destruct (matches_unique fused la.1 Hnd) as [->|[b ->]]; reflexivity.
Qed.

Lemma merge_left_elem original fused (t : Z) (a : A) (ob : option B) :
  (t, a, ob) ∈ merge_left original fused ->
  (t, a) ∈ original /\
  match ob with
  | Some b => (t, b) ∈ fused
  | None => t ∉ fused.*1
  end.
Proof.
  unfold merge_left. intros Hin.
  apply list_elem_of_bind in Hin as ([t' a'] & Hin & Hla). cbn [fst snd] in Hin.
  destruct (filter (fun rb : Z * B => rb.1 = t') fused) as [|rb rest] eqn:E;
    cbv beta iota zeta in Hin.
  - apply list_elem_of_singleton in Hin. injection Hin as -> -> ->.
    split; [exact Hla|]. intros Hkey.
    apply list_elem_of_fmap in Hkey as ([t1 b1] & Ht & Hrb). simpl in Ht. subst t1.
    assert (Hf : (t', b1) ∈ filter (fun rb : Z * B => rb.1 = t') fused)
      by (apply list_elem_of_filter; split; [reflexivity | exact Hrb]).
    rewrite E in Hf. apply elem_of_nil in Hf. exact Hf.
  - apply list_elem_of_fmap in Hin as ([t1 b1] & Heq & Hrb). simpl in Heq.
    injection Heq as -> -> ->. split; [exact Hla|].
    rewrite <- E in Hrb. apply list_elem_of_filter in Hrb as [Hkey Hrb].
    simpl in Hkey. subst t1. exact Hrb.
Qed.

End Merge.

(** C4. When no label repeats in the fused frame, the left join returns as
    many rows as the original table has: the original rows, each once and in
    their order, every one with the fused row of its label attached, or with
    nothing attached when the fused frame has no row of that label. *)
Theorem merge_keeps_rows {A B : Type} (original : list (Z * A)) (fused : list (Z * B)) :
  NoDup fused.*1 ->
  length (merge_left original fused) = length original /\
  (fun m : Z * A * option B => m.1) <$> merge_left original fused = original /\
  forall t a ob, (t, a, ob) ∈ merge_left original fused ->
    match ob with
    | Some b => (t, b) ∈ fused
    | None => t ∉ fused.*1
    end.
Proof.
  intros Hnd.
  pose proof (merge_left_rows_unique original fused Hnd) as Hrows.
  split; [|split].
  - rewrite <- Hrows at 2. rewrite length_fmap. reflexivity.
  - exact Hrows.
  - intros t a ob Hin. exact (proj2 (merge_left_elem original fused t a ob Hin)).
Qed.

Lemma merge_keeps_rows_witness :
  length (merge_left [(1, "a"); (2, "b"); (3, "c")] [(2, 20)])
    = length [(1, "a"); (2, "b"); (3, "c")] /\
  (fun m : Z * string * option Z => m.1) <$> merge_left [(1, "a"); (2, "b"); (3, "c")] [(2, 20)]
    = [(1, "a"); (2, "b"); (3, "c")] /\
  forall t a ob, (t, a, ob) ∈ merge_left [(1, "a"); (2, "b"); (3, "c")] [(2, 20)] ->
    match ob with
    | Some b => (t, b) ∈ [(2, 20)]
    | None => t ∉ [(2, 20)].*1
    end.
Proof.
  apply (merge_keeps_rows [(1, "a"); (2, "b"); (3, "c")] [(2, 20)]).
  apply (bool_decide_unpack _). vm_compute. exact I.
Defined.

Example merge_attaches :
  merge_left [(1, "a"); (2, "b"); (3, "c")] [(2, 20)]
  = [(1, "a", None); (2, "b", Some 20); (3, "c", None)].
Proof. reflexivity. Qed.

(** C9, as the code has it.  The left join makes no check on the labels of the
    fused frame and returns a table for every input: each original row comes
    out once per fused row that carries its label (once, with nothing
    attached, when none does), so a label that repeats in the fused frame
    repeats the original rows of that label. *)
Theorem merge_repeats_rows {A B : Type} (original : list (Z * A)) (fused : list (Z * B)) :
  (fun m : Z * A * option B => m.1) <$> merge_left original fused
  = original ≫= (fun la =>
      replicate (Nat.max 1 (length (filter (fun rb : Z * B => rb.1 = la.1) fused))) la).
Proof. apply merge_left_rows. Qed.

(** C9, as stated, fails: a fused frame with the label 1 twice is joined
    without complaint, and the one original row comes out twice. *)
Lemma merge_duplicate_timestamps :
  ~ NoDup [(1, 10); (1, 11)].*1 /\
  merge_left [(1, "a")] [(1, 10); (1, 11)] = [(1, "a", Some 10); (1, "a", Some 11)] /\
  length (merge_left [(1, "a")] [(1, 10); (1, 11)]) <> length [(1, "a")].
Proof.
  split; [|split].
  - intros Hnd. apply NoDup_cons in Hnd as [Hnotin _]. apply Hnotin. left.
  - reflexivity.
  - simpl. discriminate.
Qed.

(** ** The whole pipeline *)

Section Pipeline.
Variable Pelt_fit_predict : string -> list float -> Z -> res (list Z).
Context {Row : Type} (Close : Row -> float).

Lemma bars_of_data (data : list (Z * Row)) :
  let bars := (fun d : Z * Row => Bar d.1 (Close d.2) (Close d.2)) <$> data in
  label <$> bars = data.*1 /\
  price_value <$> bars = (fun d : Z * Row => Close d.2) <$> data /\
  Py.len bars = Py.len data.
Proof.
  cbv zeta. unfold Py.len. rewrite length_fmap, <- !list_fmap_compose. auto.
Qed.

(** C5. For a table with distinct index labels, and breakpoints that refer to
    a position of the series or lie beyond its end, [get_pvt_signals] (left
    and right window 5, proximity window 8) returns a table in which the
    added column [cpd_pvt_signals] is "buy", "sell" or null (nothing attached
    to the row), never "hold". *)
Theorem merged_signal_values (data : list (Z * Row)) (breaks : list Z) :
  NoDup data.*1 ->
  Pelt_fit_predict "rbf" ((fun d : Z * Row => Close d.2) <$> data) 20 = Ok breaks ->
  Forall (fun cp => - Py.len data <= cp) breaks ->
  exists out,
    get_pvt_signals Pelt_fit_predict Close data = Ok out /\
    forall t r added, (t, r, added) ∈ out ->
      cpd_pvt_signals <$> added = None \/
      cpd_pvt_signals <$> added = Some "buy" \/
      cpd_pvt_signals <$> added = Some "sell".
Proof.
  intros Hnd Hsolver Hbreaks.
  destruct (bars_of_data data) as (Hlabels & Hprices & Hlen).
  set (bars := (fun d : Z * Row => Bar d.1 (Close d.2) (Close d.2)) <$> data) in *.
  rewrite <- Hlabels in Hnd. rewrite <- Hprices in Hsolver. rewrite <- Hlen in Hbreaks.
  assert (H5 : 0 <= 5) by lia.
  destruct (generate_signals_total Pelt_fit_predict bars 5 5 20 "rbf" 8 breaks
              H5 H5 Hsolver Hbreaks)
    as (highs & lows & cps & _ & _ & _ & _ & Hrun).
  unfold get_pvt_signals. fold bars. rewrite Hrun. simpl.
  eexists. split; [reflexivity|].
  intros t r added Hin.
  apply list_elem_of_fmap in Hin as ([[t' r'] ob] & Heq & Hin).
  simpl in Heq. injection Heq as -> -> ->.
  destruct ob as [srow|]; [|left; reflexivity].
  right. simpl.
  apply merge_left_elem in Hin as [_ Hin].
  apply list_elem_of_filter in Hin as [Hactive Hin]. simpl in Hactive.
  apply list_elem_of_lookup in Hin as [i Hi].
  assert (H1 : 1 <= 5) by lia.
  destruct (flags_exclusive Pelt_fit_predict bars 5 5 20 "rbf" 8 _ i t' srow
              H5 H1 Hnd Hrun Hi) as [_ Hlabel].
  destruct Hlabel as [->| ->]; auto.
  apply orb_true_iff in Hactive. exact Hactive.
Qed.

(** The rows of the table come back as they are, each once and in order. *)
Lemma get_pvt_signals_keeps_rows (data : list (Z * Row))
    (out : list (Z * Row * option AddedColumns)) :
  NoDup data.*1 ->
  get_pvt_signals Pelt_fit_predict Close data = Ok out ->
  (fun m : Z * Row * option AddedColumns => m.1) <$> out = data.
Proof.
  intros Hnd. unfold get_pvt_signals.
  destruct (generate_signals _ _ _ _ _ _ _) as [frame|] eqn:Hrun; simpl; [|discriminate].
  intros [= <-]. rewrite <- list_fmap_compose.
  apply generate_signals_inv in Hrun
    as (highs & lows & breaks & cps & _ & _ & _ & _ & _ & _ & _ & ->).
  apply merge_left_rows_unique.
  eapply sublist_NoDup; [|apply fmap_sublist, sublist_filter].
  destruct (bars_of_data data) as (Hlabels & _ & _). cbv zeta in Hlabels.
  rewrite <- Hlabels in Hnd.
  replace ((fused_frame _ highs lows cps 8).*1) with
    (label <$> ((fun d : Z * Row => Bar d.1 (Close d.2) (Close d.2)) <$> data));
    [exact Hnd|].
  unfold fused_frame, frame_of. cbv zeta. apply list_eq. intros i.
  rewrite !list_lookup_fmap, list_lookup_imap, !list_lookup_fmap.
  destruct (data !! i); reflexivity.
Qed.

End Pipeline.

Lemma merged_signal_values_witness :
  exists out,
    get_pvt_signals (Pelt_answers [3]) (fun close : float => close)
      (table_of [1; 5; 2; 8; 3; 1; 9; 2; 1; 2; 3; 4; 5; 6; 7; 8]%float) = Ok out /\
    forall t r added, (t, r, added) ∈ out ->
      cpd_pvt_signals <$> added = None \/
      cpd_pvt_signals <$> added = Some "buy" \/
      cpd_pvt_signals <$> added = Some "sell".
Proof.
  apply (merged_signal_values (Pelt_answers [3]) (fun close : float => close)
           (table_of [1; 5; 2; 8; 3; 1; 9; 2; 1; 2; 3; 4; 5; 6; 7; 8]%float) [3; 16]).
  - apply (bool_decide_unpack _). vm_compute. exact I.
  - reflexivity.
  - repeat constructor; unfold Py.len; simpl; lia.
Defined.

(** The column that comes back: null on the hold rows. *)
Example get_pvt_signals_scenario :
  exists out,
    get_pvt_signals (Pelt_answers [3]) (fun close : float => close)
      (table_of [1; 5; 2; 8; 3; 1; 9; 2; 1; 2; 3; 4; 5; 6; 7; 8]%float) = Ok out /\
    (fun m : Z * float * option AddedColumns => (m.1.1, cpd_pvt_signals <$> m.2)) <$> out
    = [(0, None); (1, None); (2, None); (3, None); (4, None); (5, None);
       (6, Some "sell"); (7, None); (8, Some "buy"); (9, None); (10, None);
       (11, None); (12, None); (13, None); (14, None); (15, None)].
Proof. eexists. split; reflexivity. Qed.

(** Rows that share an index label share their flags, [df.at] going by label:
    with the low of position 2 and the high of position 3 under one label,
    both rows carry both flags and are labelled "hold".  The distinct labels
    asked of the index are what rules this out. *)
Example flags_follow_labels :
  exists frame,
    generate_signals (Pelt_answers [3])
      [Bar 0 1 1; Bar 1 5 5; Bar 2 2 2; Bar 2 8 8; Bar 4 3 3; Bar 5 1 1;
       Bar 6 9 9; Bar 7 2 2]%float 1 1 10 "rbf" 1 = Ok frame /\
    (fun r : Z * SignalRow => (buy_signal r.2, sell_signal r.2, signal r.2)) <$> frame
    = [(false, false, "hold"); (false, false, "hold"); (true, true, "hold");
       (true, true, "hold"); (false, false, "hold"); (false, false, "hold");
       (false, false, "hold"); (false, false, "hold")].
Proof. eexists. split; reflexivity. Qed.

(** ** Breakpoints outside the series, and a failing solver *)

Lemma sum_zeros (l : list Z) :
  Forall (fun x => x = 0) l -> Py.sum l = 0.
Proof. induction 1 as [|x l -> _ IH]; simpl; [reflexivity | exact IH]. Qed.

Lemma raise_flags_no_change_point (index : list Z) (cps : list Z) (cp_window : Z)
    (marks : list float) (idxs : list Z) (col : list bool) :
  Forall (fun x => x = 0) cps ->
  foldl (raise_flag index cps cp_window marks) col idxs = col.
Proof.
  intros Hz. induction idxs as [|i idxs IH]; [reflexivity|].
  simpl. unfold raise_flag at 2, eligible, near_change_point.
  rewrite sum_zeros; [exact IH|].
  unfold Py.slice. apply Forall_take, Forall_drop. exact Hz.
Qed.

Section Solver.
Variable Pelt_fit_predict : string -> list float -> Z -> res (list Z).
Variables (bars : list bar) (LBL LBR cp_penalty : Z) (cp_model : string) (cp_window : Z).
Hypotheses (HL : 0 <= LBL) (HR : 0 <= LBR).

Lemma generate_signals_raises (e : exn) :
  Pelt_fit_predict cp_model (price_value <$> bars) cp_penalty = Raise e ->
  generate_signals Pelt_fit_predict bars LBL LBR cp_penalty cp_model cp_window = Raise e.
Proof.
  intros Hsolver.
  destruct (pivot_lookup (osc_value <$> bars) LBL LBR "high" HL HR)
    as (highs & Eh & Hh & _).
  destruct (pivot_lookup (osc_value <$> bars) LBL LBR "low" HL HR)
    as (lows & El & Hl & _).
  rewrite length_fmap in Hh, Hl.
  unfold generate_signals, detect_change_points, column.
  rewrite Eh, El, !length_fmap. simpl.
  rewrite !decide_True by assumption. simpl.
  rewrite Hsolver. reflexivity.
Qed.

Lemma generate_signals_all_hold (breaks : list Z) :
  Pelt_fit_predict cp_model (price_value <$> bars) cp_penalty = Ok breaks ->
  Forall (fun cp => Py.len bars <= cp) breaks ->
  exists frame,
    generate_signals Pelt_fit_predict bars LBL LBR cp_penalty cp_model cp_window
      = Ok frame /\
    length frame = length bars /\
    forall i lbl row, frame !! i = Some (lbl, row) ->
      buy_signal row = false /\ sell_signal row = false /\ signal row = "hold".
Proof.
  intros Hsolver Hbreaks.
  assert (Hbelow : Forall (fun cp => - Py.len bars <= cp) breaks).
  { eapply Forall_impl; [exact Hbreaks|]. unfold Py.len. intros cp Hcp. simpl in Hcp. lia. }
  destruct (generate_signals_total Pelt_fit_predict bars LBL LBR cp_penalty cp_model
              cp_window breaks HL HR Hsolver Hbelow)
    as (highs & lows & cps & Hh & Hl & Hc & Hlk & Hrun).
  assert (Hz : Forall (fun x => x = 0) cps).
  { apply Forall_lookup. intros i x Hx.
    assert (Hi : (i < length bars)%nat) by (apply lookup_lt_Some in Hx; lia).
    rewrite (Hlk i Hi) in Hx. rewrite bool_decide_eq_false_2 in Hx; [congruence|].
    intros Hex. apply Exists_exists in Hex as (cp & Hin & Hcp).
    rewrite Forall_forall in Hbreaks. specialize (Hbreaks cp Hin).
    unfold Py.len in *. simpl in Hbreaks. lia. }
  exists (fused_frame bars highs lows cps cp_window).
  split; [exact Hrun|]. split; [apply length_fused_frame|].
  intros i lbl row. unfold fused_frame, frame_of. cbv zeta.
  rewrite !(raise_flags_no_change_point _ _ _ _ _ _ Hz).
  rewrite list_lookup_imap, !list_lookup_fmap.
  destruct (bars !! i) as [b|] eqn:Hb; simpl; [|discriminate].
  apply lookup_lt_Some in Hb.
  rewrite lookup_replicate_2 by (rewrite length_fmap; exact Hb).
  intros [= <- <-]. simpl. auto.
Qed.

Lemma generate_signals_change_points (breaks : list Z) :
  Pelt_fit_predict cp_model (price_value <$> bars) cp_penalty = Ok breaks ->
  Forall (fun cp => 0 <= cp) breaks ->
  exists frame,
    generate_signals Pelt_fit_predict bars LBL LBR cp_penalty cp_model cp_window
      = Ok frame /\
    length frame = length bars /\
    forall i lbl row, frame !! i = Some (lbl, row) ->
      change_point row = if bool_decide (Z.of_nat i ∈ breaks) then 1 else 0.
Proof.
  intros Hsolver Hbreaks.
  assert (Hbelow : Forall (fun cp => - Py.len bars <= cp) breaks).
  { eapply Forall_impl; [exact Hbreaks|]. unfold Py.len. intros cp Hcp. simpl in Hcp. lia. }
  destruct (generate_signals_total Pelt_fit_predict bars LBL LBR cp_penalty cp_model
              cp_window breaks HL HR Hsolver Hbelow)
    as (highs & lows & cps & Hh & Hl & Hc & Hlk & Hrun).
  exists (fused_frame bars highs lows cps cp_window).
  split; [exact Hrun|]. split; [apply length_fused_frame|].
  intros i lbl row Hrow.
  destruct (fused_frame_pivots bars highs lows cps cp_window Hh Hl Hc i lbl row Hrow)
    as (_ & _ & Hcp).
  assert (Hi : (i < length bars)%nat) by (apply lookup_lt_Some in Hcp; lia).
  rewrite (Hlk i Hi) in Hcp. injection Hcp as <-.
  apply (f_equal (fun b : bool => if b then 1 else 0)). apply bool_decide_ext.
  rewrite Exists_exists. rewrite Forall_forall in Hbreaks. split.
  - intros (cp & Hin & [-> | Hcp]); [exact Hin|].
    specialize (Hbreaks cp Hin). unfold Py.len in *. simpl in Hbreaks. lia.
  - intros Hin. exists (Z.of_nat i). auto.
Qed.

End Solver.

(** C6, as the code has it.  [detect_change_points] hands back the breakpoints
    of the segmentation routine as they are, a trailing [len(series)]
    included; the bounds check is made by its caller: [generate_signals] sets
    the change-point flag of the positions that are breakpoints and skips the
    breakpoints that are not below the length, so that the frame is returned
    without an access out of range. *)
Theorem sentinel_left_to_caller
    (Pelt_fit_predict : string -> list float -> Z -> res (list Z))
    (bars : list bar) (LBL LBR cp_penalty : Z) (cp_model : string) (cp_window : Z)
    (breaks : list Z) :
  0 <= LBL -> 0 <= LBR ->
  Pelt_fit_predict cp_model (price_value <$> bars) cp_penalty = Ok breaks ->
  Forall (fun cp => 0 <= cp) breaks ->
  detect_change_points Pelt_fit_predict (price_value <$> bars) cp_model cp_penalty
    = Ok breaks /\
  exists frame,
    generate_signals Pelt_fit_predict bars LBL LBR cp_penalty cp_model cp_window
      = Ok frame /\
    length frame = length bars /\
    forall i lbl row, frame !! i = Some (lbl, row) ->
      change_point row = if bool_decide (Z.of_nat i ∈ breaks) then 1 else 0.
Proof.
  intros HL HR Hsolver Hbreaks. split.
  - unfold detect_change_points. rewrite Hsolver. reflexivity.
  - exact (generate_signals_change_points Pelt_fit_predict bars LBL LBR cp_penalty
             cp_model cp_window HL HR breaks Hsolver Hbreaks).
Qed.

Lemma sentinel_left_to_caller_witness :
  detect_change_points (Pelt_answers [3])
    (price_value <$> bars_of [1; 5; 2; 8; 3; 1; 9; 2]%float) "rbf" 10 = Ok [3; 8] /\
  exists frame,
    generate_signals (Pelt_answers [3]) (bars_of [1; 5; 2; 8; 3; 1; 9; 2]%float)
                     1 1 10 "rbf" 1 = Ok frame /\
    length frame = length (bars_of [1; 5; 2; 8; 3; 1; 9; 2]%float) /\
    forall i lbl row, frame !! i = Some (lbl, row) ->
      change_point row = if bool_decide (Z.of_nat i ∈ [3; 8]) then 1 else 0.
Proof.
  apply (sentinel_left_to_caller (Pelt_answers [3])
           (bars_of [1; 5; 2; 8; 3; 1; 9; 2]%float) 1 1 10 "rbf" 1 [3; 8]).
  - lia.
  - lia.
  - reflexivity.
  - repeat constructor; lia.
Defined.

(** C6, as stated, fails: for a series of three values without a break the
    routine answers [3], and [detect_change_points] returns that [3], which is
    not a position of the series. *)
Lemma detect_change_points_returns_sentinel :
  detect_change_points (Pelt_answers []) [1; 2; 3]%float "rbf" 10 = Ok [3] /\
  ~ Forall (fun cp => 0 <= cp < Py.len [1; 2; 3]%float) [3].
Proof.
  split; [reflexivity|].
  intros H. apply Forall_cons in H as [H _]. unfold Py.len in H. simpl in H. lia.
Qed.

(** C8, as the code has it.  An exception of the segmentation routine is not
    caught: [detect_change_points] raises it, and so does [generate_signals].
    When the routine returns no breakpoint below the length of the series (no
    breakpoint at all, or the trailing one only), every row of the frame has
    both flags false and the label "hold". *)
Theorem solver_failure_propagates
    (Pelt_fit_predict : string -> list float -> Z -> res (list Z))
    (bars : list bar) (LBL LBR cp_penalty : Z) (cp_model : string) (cp_window : Z) :
  0 <= LBL -> 0 <= LBR ->
  (forall e,
     Pelt_fit_predict cp_model (price_value <$> bars) cp_penalty = Raise e ->
     detect_change_points Pelt_fit_predict (price_value <$> bars) cp_model cp_penalty
       = Raise e /\
     generate_signals Pelt_fit_predict bars LBL LBR cp_penalty cp_model cp_window
       = Raise e) /\
  (forall breaks,
     Pelt_fit_predict cp_model (price_value <$> bars) cp_penalty = Ok breaks ->
     Forall (fun cp => Py.len bars <= cp) breaks ->
     exists frame,
       generate_signals Pelt_fit_predict bars LBL LBR cp_penalty cp_model cp_window
         = Ok frame /\
       length frame = length bars /\
       forall i lbl row, frame !! i = Some (lbl, row) ->
         buy_signal row = false /\ sell_signal row = false /\ signal row = "hold").
Proof.
  intros HL HR. split.
  - intros e Hsolver. split.
    + unfold detect_change_points. rewrite Hsolver. reflexivity.
    + exact (generate_signals_raises Pelt_fit_predict bars LBL LBR cp_penalty cp_model
               cp_window HL HR e Hsolver).
  - intros breaks Hsolver Hbreaks.
    exact (generate_signals_all_hold Pelt_fit_predict bars LBL LBR cp_penalty cp_model
             cp_window HL HR breaks Hsolver Hbreaks).
Qed.

Lemma solver_failure_propagates_witness :
  (detect_change_points Pelt_refuses (price_value <$> bars_of [1; 5; 2]%float) "rbf" 10
     = Raise BadSegmentationParameters /\
   generate_signals Pelt_refuses (bars_of [1; 5; 2]%float) 1 1 10 "rbf" 1
     = Raise BadSegmentationParameters) /\
  (exists frame,
     generate_signals (Pelt_answers []) (bars_of [1; 5; 2]%float) 1 1 10 "rbf" 1
       = Ok frame /\
     length frame = length (bars_of [1; 5; 2]%float) /\
     forall i lbl row, frame !! i = Some (lbl, row) ->
       buy_signal row = false /\ sell_signal row = false /\ signal row = "hold").
Proof.
  assert (H0 : 0 <= 1) by lia.
  split.
  - apply (proj1 (solver_failure_propagates Pelt_refuses (bars_of [1; 5; 2]%float)
                    1 1 10 "rbf" 1 H0 H0) BadSegmentationParameters).
    reflexivity.
  - apply (proj2 (solver_failure_propagates (Pelt_answers []) (bars_of [1; 5; 2]%float)
                    1 1 10 "rbf" 1 H0 H0) [3]).
    + reflexivity.
    + repeat constructor. unfold Py.len. simpl. lia.
Defined.

(** C8, as stated, fails: when the routine refuses a series of one value,
    [detect_change_points] raises and returns no empty set, and the frame is
    not built. *)
Lemma detect_change_points_raises :
  detect_change_points Pelt_refuses [1]%float "rbf" 10 = Raise BadSegmentationParameters /\
  detect_change_points Pelt_refuses [1]%float "rbf" 10 <> Ok [] /\
  generate_signals Pelt_refuses (bars_of [1]%float) 3 3 10 "rbf" 5
    = Raise BadSegmentationParameters.
Proof. split; [reflexivity|]. split; [discriminate | reflexivity]. Qed.

(** * Further properties of the engine *)

(** ** More IEEE facts *)

Lemma SFcompare_Lt_trans (f g h : spec_float) :
  SFcompare f g = Some Lt -> SFcompare g h = Some Lt -> SFcompare f h = Some Lt.
Proof.
  destruct f as [s1|s1| |s1 m1 e1], g as [s2|s2| |s2 m2 e2], h as [s3|s3| |s3 m3 e3];
    simpl; try congruence;
    try (destruct s1; congruence); try (destruct s2; congruence);
    try (destruct s3; congruence);
    try (destruct s1, s2; congruence); try (destruct s2, s3; congruence);
    try (destruct s1, s3; congruence);
    try (destruct s1, s2, s3; congruence).
  change (Pos.compare_cont Eq m1 m2) with (Pos.compare m1 m2).
  change (Pos.compare_cont Eq m2 m3) with (Pos.compare m2 m3).
  change (Pos.compare_cont Eq m1 m3) with (Pos.compare m1 m3).
  destruct s1, s2, s3; try congruence;
    destruct (Z.compare_spec e1 e2), (Z.compare_spec e2 e3), (Z.compare_spec e1 e3);
    try congruence; try lia; subst;
    destruct (Pos.compare_spec m1 m2), (Pos.compare_spec m2 m3),
             (Pos.compare_spec m1 m3);
    simpl; try congruence; try lia.
Qed.

Lemma ltb_trans (a b c : float) :
  PrimFloat.ltb a b = true -> PrimFloat.ltb b c = true -> PrimFloat.ltb a c = true.
Proof.
  rewrite !FloatAxioms.ltb_spec. unfold SFltb.
  destruct (SFcompare (Prim2SF a) (Prim2SF b)) as [[]|] eqn:E1; try discriminate.
  destruct (SFcompare (Prim2SF b) (Prim2SF c)) as [[]|] eqn:E2; try discriminate.
  intros _ _. rewrite (SFcompare_Lt_trans _ _ _ E1 E2). reflexivity.
Qed.

Lemma leb_refl (a : float) : is_nan a = false -> PrimFloat.leb a a = true.
Proof.
  unfold is_nan. rewrite negb_false_iff, FloatAxioms.eqb_spec, FloatAxioms.leb_spec.
  unfold SFeqb, SFleb. destruct (SFcompare (Prim2SF a) (Prim2SF a)) as [[]|];
    congruence.
Qed.

Lemma SFcompare_Eq_sym (f g : spec_float) :
  SFcompare f g = Some Eq -> SFcompare g f = Some Eq.
Proof.
  destruct f as [s1|s1| |s1 m1 e1], g as [s2|s2| |s2 m2 e2]; simpl;
    try congruence; try (destruct s1; congruence); try (destruct s2; congruence);
    try (destruct s1, s2; congruence).
  rewrite (Z.compare_antisym e1 e2).
  pose proof (Pos.compare_cont_antisym m1 m2 Eq) as Hm; simpl in Hm.
  rewrite <- Hm; clear Hm.
  destruct s1, s2; try congruence;
    destruct (e1 ?= e2)%Z; simpl; try congruence;
    destruct (Pos.compare_cont Eq m1 m2); simpl; congruence.
Qed.

Lemma eqb_not_ltb (a b : float) :
  PrimFloat.eqb a b = true -> PrimFloat.ltb a b = false /\ PrimFloat.ltb b a = false.
Proof.
  rewrite FloatAxioms.eqb_spec, !FloatAxioms.ltb_spec. unfold SFeqb, SFltb.
  destruct (SFcompare (Prim2SF a) (Prim2SF b)) as [[]|] eqn:E1; try discriminate.
  intros _. split; [reflexivity|].
  rewrite (SFcompare_Eq_sym _ _ E1). reflexivity.
Qed.

Lemma nan_not_ltb (a b : float) :
  is_nan a = true \/ is_nan b = true -> PrimFloat.ltb a b = false.
Proof.
  intros H. destruct (PrimFloat.ltb a b) eqn:E; [|reflexivity].
  apply ltb_not_nan in E as [Ha Hb]. destruct H; congruence.
Qed.

(** ** What [pivot] keeps for every argument *)

Section PivotAlways.
Variables (osc : list float) (LBL LBR : Z) (highlow : string).

Lemma position_raises (n k : Z) (e : exn) :
  Py.position n k = Raise e -> e = IndexError.
Proof.
  unfold Py.position. destruct (_ && _); [discriminate|]. intros [= <-]. reflexivity.
Qed.

Lemma item_raises {A : Type} (l : list A) (k : Z) (e : exn) :
  Py.item l k = Raise e -> e = IndexError.
Proof.
  unfold Py.item. destruct (Py.position (Py.len l) k) as [p|e'] eqn:E; simpl.
  - destruct (l !! p); [discriminate|]. intros [= <-]. reflexivity.
  - intros [= <-]. exact (position_raises _ _ _ E).
Qed.

Lemma checkhl_raises (back forward : list float) (hl : string) (e : exn) :
  checkhl back forward hl = Raise e -> e = IndexError.
Proof.
  unfold checkhl. destruct (Py.item back (-1)) as [ref|e'] eqn:E; simpl.
  - destruct (String.eqb hl "high"); [discriminate|].
    destruct (String.eqb hl "low"); discriminate.
  - intros [= <-]. exact (item_raises _ _ _ E).
Qed.

Lemma pivot_step_raises (pivots : list float) (i : Z) (e : exn) :
  pivot_step osc LBL LBR highlow pivots i = Raise e -> e = IndexError.
Proof.
  unfold pivot_step.
  destruct (checkhl _ _ _) as [b|e'] eqn:E; simpl;
    [|intros [= <-]; exact (checkhl_raises _ _ _ _ E)].
  destruct b; [|discriminate].
  destruct (Py.item osc i) as [v|e'] eqn:Ei; simpl;
    [|intros [= <-]; exact (item_raises _ _ _ Ei)].
  unfold Py.setitem. destruct (Py.position _ _) as [q|e'] eqn:Eq; simpl; [discriminate|].
  intros [= <-]. exact (position_raises _ _ _ Eq).
Qed.

Lemma pivot_step_keeps (pivots pivots' : list float) (i : Z) :
  entries_of_series osc pivots ->
  pivot_step osc LBL LBR highlow pivots i = Ok pivots' ->
  entries_of_series osc pivots'.
Proof.
  intros [Hlen Hent]. unfold pivot_step.
  destruct (checkhl _ _ _) as [b|]; simpl; [|discriminate].
  destruct b; [|intros [= <-]; split; assumption].
  unfold Py.item, Py.setitem, Py.len. rewrite Hlen.
  destruct (Py.position (Z.of_nat (length osc)) i) as [q|]; simpl; [|discriminate].
  destruct (osc !! q) as [v|] eqn:Hq; simpl; [|discriminate].
  intros [= <-]. split; [rewrite length_insert; exact Hlen|].
  intros k w Hk Hw. destruct (decide (q = k)) as [->|Hne].
  - rewrite list_lookup_insert_eq in Hk by (apply lookup_lt_Some in Hq; lia).
    congruence.
  - rewrite list_lookup_insert_ne in Hk by assumption. exact (Hent k w Hk Hw).
Qed.

Lemma pivot_loop_keeps (idxs : list Z) :
  forall pivots out,
    entries_of_series osc pivots ->
    for_each (pivot_step osc LBL LBR highlow) idxs pivots = Ok out ->
    entries_of_series osc out.
Proof.
  induction idxs as [|i idxs IH]; intros pivots out Hinv; simpl.
  - intros [= <-]. exact Hinv.
  - destruct (pivot_step osc LBL LBR highlow pivots i) as [p1|] eqn:E; simpl;
      [|discriminate].
    apply IH. exact (pivot_step_keeps pivots p1 i Hinv E).
Qed.

Lemma pivot_loop_raises (idxs : list Z) :
  forall pivots e,
    for_each (pivot_step osc LBL LBR highlow) idxs pivots = Raise e -> e = IndexError.
Proof.
  induction idxs as [|i idxs IH]; intros pivots e; simpl; [discriminate|].
  destruct (pivot_step osc LBL LBR highlow pivots i) as [p1|e'] eqn:E; simpl.
  - apply IH.
  - intros [= <-]. exact (pivot_step_raises _ _ _ E).
Qed.

(** An iteration that raises for every state makes the loop raise. *)
Lemma pivot_loop_hits (idxs : list Z) (i : Z) :
  i ∈ idxs ->
  (forall pivots, exists e, pivot_step osc LBL LBR highlow pivots i = Raise e) ->
  forall pivots, exists e,
    for_each (pivot_step osc LBL LBR highlow) idxs pivots = Raise e.
Proof.
  intros Hin Hbad. induction idxs as [|j idxs IH]; intros pivots.
  - apply elem_of_nil in Hin. contradiction.
  - simpl. destruct (pivot_step osc LBL LBR highlow pivots j) as [p1|e] eqn:E; simpl.
    + apply elem_of_cons in Hin as [->|Hin].
      * destruct (Hbad pivots) as [e He]. congruence.
      * apply IH. exact Hin.
    + exists e. reflexivity.
Qed.

End PivotAlways.

(** X1. Whatever the window sizes and the kind, a sequence [pivot] returns has
    the length of the series, and each of its entries that is not NaN is the
    value of the series at the same position. *)
Theorem pivot_entries (osc : list float) (LBL LBR : Z) (highlow : string)
    (out : list float) :
  pivot osc LBL LBR highlow = Ok out ->
  length out = length osc /\
  forall k v, out !! k = Some v -> is_nan v = false -> osc !! k = Some v.
Proof.
  unfold pivot. apply pivot_loop_keeps. split; [apply length_replicate|].
  intros k v Hk Hv. apply lookup_replicate_1 in Hk as [-> _].
  rewrite is_nan_nan in Hv. discriminate.
Qed.

Lemma pivot_entries_witness :
  length [nan; 5; nan; 8; nan; nan; 9; nan]%float
    = length [1; 5; 2; 8; 3; 1; 9; 2]%float /\
  forall k v, [nan; 5; nan; 8; nan; nan; 9; nan]%float !! k = Some v ->
    is_nan v = false -> [1; 5; 2; 8; 3; 1; 9; 2]%float !! k = Some v.
Proof.
  apply (pivot_entries [1; 5; 2; 8; 3; 1; 9; 2]%float 1 1 "high"). reflexivity.
Defined.

(** X2. A kind that is neither "high" nor "low" is no error: for non-negative
    window sizes the detector returns the all-NaN sequence. *)
Theorem pivot_unknown_kind (osc : list float) (LBL LBR : Z) (highlow : string) :
  highlow <> "high" -> highlow <> "low" ->
  0 <= LBL -> 0 <= LBR ->
  pivot osc LBL LBR highlow = Ok (replicate (length osc) nan).
Proof.
  intros Hh Hl HL HR.
  destruct (pivot_lookup osc LBL LBR highlow HL HR) as (out & Hout & Hlen & Hlk).
  rewrite Hout. f_equal. apply list_eq. intros j.
  destruct (decide (j < length osc)%nat) as [Hj|Hj].
  - rewrite (Hlk j Hj), lookup_replicate_2 by exact Hj.
    unfold pivot_test.
    rewrite (proj2 (String.eqb_neq highlow "high") Hh).
    rewrite (proj2 (String.eqb_neq highlow "low") Hl).
    rewrite andb_false_r. reflexivity.
  - rewrite !(proj2 (lookup_ge_None _ _)); [reflexivity| |]; rewrite ?length_replicate; lia.
Qed.

Lemma pivot_unknown_kind_witness :
  pivot [1; 5; 2]%float 1 1 "High" = Ok (replicate (length [1; 5; 2]%float) nan).
Proof.
  apply (pivot_unknown_kind [1; 5; 2]%float 1 1 "High"); (discriminate || lia).
Defined.

(** X3. A negative left window is refused: when the right window is not longer
    than the series, [pivot] raises [IndexError] (the iteration [i = -1] asks
    [checkhl] for the last element of an empty slice). *)
Theorem pivot_negative_left (osc : list float) (LBL LBR : Z) (highlow : string) :
  LBL < 0 -> LBR <= Py.len osc ->
  pivot osc LBL LBR highlow = Raise IndexError.
Proof.
  intros HL HR. unfold pivot.
  destruct (pivot_loop_hits osc LBL LBR highlow (Py.range LBL (Py.len osc - LBR)) (-1))
    with (pivots := replicate (length osc) nan) as [e He].
  - unfold Py.range. apply elem_of_seqZ. lia.
  - intros pivots. exists IndexError. unfold pivot_step.
    replace (Py.slice osc (-1 - LBL) (-1 + 1)) with (@nil float); [reflexivity|].
    change (-1 + 1) with 0. unfold Py.slice, Py.bound.
    destruct (Z.ltb_spec (-1 - LBL) 0); [lia|].
    destruct (Z.ltb_spec 0 0); [lia|]. unfold Py.len.
    replace (Z.to_nat (0 `min` Z.of_nat (length osc)
                       - (-1 - LBL) `min` Z.of_nat (length osc))) with 0%nat by lia.
    reflexivity.
  - rewrite He. f_equal. exact (pivot_loop_raises _ _ _ _ _ _ _ He).
Qed.

Lemma pivot_negative_left_witness :
  pivot [1; 5; 2; 8]%float (-2) 1 "high" = Raise IndexError.
Proof.
  apply (pivot_negative_left [1; 5; 2; 8]%float (-2) 1 "high");
    unfold Py.len; simpl; lia.
Defined.

(** X4. Of two equal values the earlier one is no pivot: when a value within
    the right window of position [i] equals the value at [i], position [i] is
    marked neither high nor low (the comparison with the bars that follow is
    strict). *)
Theorem pivot_tie_not_marked (osc : list float) (LBL LBR : Z)
    (highs lows : list float) (i j : nat) (v w : float) :
  0 <= LBL ->
  osc !! i = Some v -> osc !! j = Some w -> PrimFloat.eqb v w = true ->
  Z.of_nat i < Z.of_nat j <= Z.of_nat i + LBR ->
  pivot osc LBL LBR "high" = Ok highs ->
  pivot osc LBL LBR "low" = Ok lows ->
  ~ marked highs i /\ ~ marked lows i.
Proof.
  intros HL Hi Hj Heq Hij Eh El.
  assert (HR : 0 <= LBR) by lia.
  destruct (pivot_high_rule osc LBL LBR HL HR) as (highs' & Eh' & _ & Rh).
  destruct (pivot_low_rule osc LBL LBR HL HR) as (lows' & El' & _ & Rl).
  assert (highs' = highs) by congruence. assert (lows' = lows) by congruence.
  subst highs' lows'.
  destruct (Rh i v Hi) as (_ & _ & Hh). destruct (Rl i v Hi) as (_ & _ & Hl).
  destruct (eqb_not_ltb v w Heq) as [Hvw Hwv].
  split; intros M.
  - apply Hh in M; [|left; lia]. destruct M as [_ (ref & Href & _ & Hf)].
    assert (ref = v) by congruence. subst ref.
    specialize (Hf j w Hij Hj). unfold fgt in Hf. congruence.
  - apply Hl in M; [|left; lia]. destruct M as [_ (ref & Href & _ & Hf)].
    assert (ref = v) by congruence. subst ref.
    specialize (Hf j w Hij Hj). unfold flt in Hf. congruence.
Qed.

Lemma pivot_tie_not_marked_witness :
  ~ marked [nan; nan; 7; nan; nan]%float 1 /\ ~ marked [nan; nan; nan; 2; nan]%float 1.
Proof.
  apply (pivot_tie_not_marked [1; 7; 7; 2; 3]%float 1 1 _ _ 1%nat 2%nat 7%float 7%float);
    try reflexivity; lia.
Defined.

(** X5. Without a right window a flat stretch is high and low at once: on a
    series that repeats one number, with [LBR = 0], every position from [LBL]
    on is marked by the high pass and by the low pass. *)
Theorem pivot_flat_series (n : nat) (v : float) (LBL : Z) :
  is_nan v = false -> 0 <= LBL ->
  exists highs lows,
    pivot (replicate n v) LBL 0 "high" = Ok highs /\
    pivot (replicate n v) LBL 0 "low" = Ok lows /\
    forall i, LBL <= Z.of_nat i -> (i < n)%nat ->
      highs !! i = Some v /\ lows !! i = Some v.
Proof.
  intros Hv HL.
  assert (H0 : 0 <= 0) by lia.
  destruct (pivot_high_rule (replicate n v) LBL 0 HL H0) as (highs & Eh & _ & Rh).
  destruct (pivot_low_rule (replicate n v) LBL 0 HL H0) as (lows & El & _ & Rl).
  exists highs, lows. split; [exact Eh|]. split; [exact El|].
  intros i Hi Hin.
  assert (Href : replicate n v !! i = Some v) by (apply lookup_replicate_2; exact Hin).
  assert (Hok : forall ge gt : float -> float -> bool,
             ge v v = true -> window_ok ge gt (replicate n v) LBL 0 i).
  { intros ge gt Hge. split; [unfold Py.len; rewrite length_replicate; lia|].
    exists v. split; [exact Href|]. split.
    - intros j x _ Hx. apply lookup_replicate_1 in Hx as [-> _]. exact Hge.
    - intros j x Hj _. lia. }
  split.
  - apply (Rh i v Href). apply Hok. unfold fge. apply leb_refl. exact Hv.
  - apply (Rl i v Href). apply Hok. unfold fle. apply leb_refl. exact Hv.
Qed.

Lemma pivot_flat_series_witness :
  exists highs lows,
    pivot (replicate 4 3%float) 1 0 "high" = Ok highs /\
    pivot (replicate 4 3%float) 1 0 "low" = Ok lows /\
    forall i, 1 <= Z.of_nat i -> (i < 4)%nat ->
      highs !! i = Some 3%float /\ lows !! i = Some 3%float.
Proof. apply (pivot_flat_series 4 3%float 1); [reflexivity | lia]. Defined.

(** X6. [checkhl] raises [IndexError] on an empty backward window, whatever
    the kind, and returns a verdict on every other one. *)
Theorem checkhl_empty_back (data_back data_forward : list float) (hl : string) :
  match data_back with
  | [] => checkhl data_back data_forward hl = Raise IndexError
  | _ :: _ => exists b, checkhl data_back data_forward hl = Ok b
  end.
Proof.
  destruct data_back as [|x back]; [reflexivity|].
  destruct (lookup_lt_is_Some_2 (x :: back) (length (x :: back) - 1)) as [ref Href];
    [simpl; lia|].
  unfold checkhl. rewrite (item_last _ _ Href). simpl.
  destruct (String.eqb hl "high"); [eexists; reflexivity|].
  destruct (String.eqb hl "low"); eexists; reflexivity.
Qed.

(** ** More on the frame of [generate_signals] *)

Section FrameColumns.
Variables (bars : list bar) (highs lows : list float) (cps : list Z) (cp_window : Z).

Lemma fused_frame_labels :
  (fused_frame bars highs lows cps cp_window).*1 = label <$> bars.
Proof.
  unfold fused_frame, frame_of. cbv zeta. apply list_eq. intros i.
  rewrite !list_lookup_fmap, list_lookup_imap, !list_lookup_fmap.
  destruct (bars !! i); reflexivity.
Qed.

Lemma fused_frame_inputs :
  (fun r : Z * SignalRow => price r.2) <$> fused_frame bars highs lows cps cp_window
    = price_value <$> bars /\
  (fun r : Z * SignalRow => osc r.2) <$> fused_frame bars highs lows cps cp_window
    = osc_value <$> bars.
Proof.
  unfold fused_frame, frame_of. cbv zeta.
  split; apply list_eq; intros i;
    rewrite !list_lookup_fmap, list_lookup_imap, !list_lookup_fmap;
    destruct (bars !! i); reflexivity.
Qed.

Hypotheses (Hhighs : length highs = length bars) (Hlows : length lows = length bars).

Lemma fused_frame_pivot_columns :
  (fun r : Z * SignalRow => pvtHigh r.2) <$> fused_frame bars highs lows cps cp_window
    = highs /\
  (fun r : Z * SignalRow => pvtLow r.2) <$> fused_frame bars highs lows cps cp_window
    = lows.
Proof.
  unfold fused_frame, frame_of. cbv zeta.
  split; apply list_eq; intros i;
    rewrite !list_lookup_fmap, list_lookup_imap, !list_lookup_fmap;
    (destruct (bars !! i) as [b|] eqn:Hb; simpl;
     [ apply lookup_lt_Some in Hb;
       first [ destruct (lookup_lt_is_Some_2 highs i) as [x Hx]; [lia|];
               rewrite Hx; reflexivity
             | destruct (lookup_lt_is_Some_2 lows i) as [x Hx]; [lia|];
               rewrite Hx; reflexivity ]
     | apply lookup_ge_None in Hb; symmetry; apply lookup_ge_None; lia ]).
Qed.

End FrameColumns.

(** X7. The frame [generate_signals] returns has the index of its input, row
    for row, its columns [price] and [osc] are the two input series, and its
    columns [pvtHigh] and [pvtLow] are what [pivot] returns for the oscillator
    with kind "high" and kind "low". *)
Theorem generate_signals_columns
    (Pelt_fit_predict : string -> list float -> Z -> res (list Z))
    (bars : list bar) (LBL LBR cp_penalty : Z) (cp_model : string) (cp_window : Z)
    (frame : SignalFrame) :
  generate_signals Pelt_fit_predict bars LBL LBR cp_penalty cp_model cp_window
    = Ok frame ->
  frame.*1 = label <$> bars /\
  (fun r : Z * SignalRow => price r.2) <$> frame = price_value <$> bars /\
  (fun r : Z * SignalRow => osc r.2) <$> frame = osc_value <$> bars /\
  pivot (osc_value <$> bars) LBL LBR "high"
    = Ok ((fun r : Z * SignalRow => pvtHigh r.2) <$> frame) /\
  pivot (osc_value <$> bars) LBL LBR "low"
    = Ok ((fun r : Z * SignalRow => pvtLow r.2) <$> frame).
Proof.
  intros Hrun.
  apply generate_signals_inv in Hrun
    as (highs & lows & breaks & cps & Eh & El & Hh & Hl & _ & _ & _ & ->).
  destruct (fused_frame_inputs bars highs lows cps cp_window) as [Hp Ho].
  destruct (fused_frame_pivot_columns bars highs lows cps cp_window Hh Hl) as [Hph Hpl].
  split; [apply fused_frame_labels|]. split; [exact Hp|]. split; [exact Ho|].
  rewrite Hph, Hpl. split; assumption.
Qed.

Lemma generate_signals_columns_witness :
  exists frame,
    generate_signals (Pelt_answers [3]) (bars_of [1; 5; 2; 8; 3; 1; 9; 2]%float)
      1 1 10 "rbf" 1 = Ok frame /\
    frame.*1 = label <$> bars_of [1; 5; 2; 8; 3; 1; 9; 2]%float /\
    (fun r : Z * SignalRow => price r.2) <$> frame
      = price_value <$> bars_of [1; 5; 2; 8; 3; 1; 9; 2]%float /\
    (fun r : Z * SignalRow => osc r.2) <$> frame
      = osc_value <$> bars_of [1; 5; 2; 8; 3; 1; 9; 2]%float /\
    pivot (osc_value <$> bars_of [1; 5; 2; 8; 3; 1; 9; 2]%float) 1 1 "high"
      = Ok ((fun r : Z * SignalRow => pvtHigh r.2) <$> frame) /\
    pivot (osc_value <$> bars_of [1; 5; 2; 8; 3; 1; 9; 2]%float) 1 1 "low"
      = Ok ((fun r : Z * SignalRow => pvtLow r.2) <$> frame).
Proof.
  eexists. split; [reflexivity|].
  apply (generate_signals_columns (Pelt_answers [3])
           (bars_of [1; 5; 2; 8; 3; 1; 9; 2]%float) 1 1 10 "rbf" 1).
  reflexivity.
Defined.

(** The change-point column holds flags. *)
Lemma mark_loop_flags (n : Z) (breaks : list Z) :
  forall col col',
    Forall (fun x => x = 0 \/ x = 1) col ->
    for_each (mark_change_point n) breaks col = Ok col' ->
    Forall (fun x => x = 0 \/ x = 1) col'.
Proof.
  induction breaks as [|cp breaks IH]; intros col col' Hcol; simpl.
  - intros [= <-]. exact Hcol.
  - destruct (mark_change_point n col cp) as [col1|] eqn:E; simpl; [|discriminate].
    apply IH. unfold mark_change_point, Py.setitem in E.
    destruct (cp <? n); [|injection E as <-; exact Hcol].
    destruct (Py.position (Py.len col) cp) as [q|]; simpl in E; [|discriminate].
    injection E as <-. apply Forall_insert; [exact Hcol | right; reflexivity].
Qed.

(** X8. Whatever breakpoints the segmentation routine returns, the column
    [change_point] of a returned frame holds 0 or 1 in every row. *)
Theorem change_point_is_flag
    (Pelt_fit_predict : string -> list float -> Z -> res (list Z))
    (bars : list bar) (LBL LBR cp_penalty : Z) (cp_model : string) (cp_window : Z)
    (frame : SignalFrame) (i : nat) (lbl : Z) (row : SignalRow) :
  generate_signals Pelt_fit_predict bars LBL LBR cp_penalty cp_model cp_window
    = Ok frame ->
  frame !! i = Some (lbl, row) ->
  change_point row = 0 \/ change_point row = 1.
Proof.
  intros Hrun Hrow.
  apply generate_signals_inv in Hrun
    as (highs & lows & breaks & cps & _ & _ & Hh & Hl & _ & Ec & Hc & ->).
  destruct (fused_frame_pivots bars highs lows cps cp_window Hh Hl Hc i lbl row Hrow)
    as (_ & _ & Hcp).
  apply mark_loop_flags in Ec.
  - rewrite Forall_lookup in Ec. exact (Ec i _ Hcp).
  - apply Forall_replicate. left. reflexivity.
Qed.

Lemma change_point_is_flag_witness :
  let row := {| price := 8; osc := 8; pvtHigh := 8; pvtLow := nan; change_point := 1;
                buy_signal := false; sell_signal := true; signal := "sell" |}%float in
  change_point row = 0 \/ change_point row = 1.
Proof.
  eapply (change_point_is_flag (Pelt_answers [3])
            (bars_of [1; 5; 2; 8; 3; 1; 9; 2]%float) 1 1 10 "rbf" 1 _ 3%nat 3).
  - reflexivity.
  - reflexivity.
Defined.

(** ** Near a change point, by distance *)

Lemma sum_flags_nonneg (l : list Z) :
  Forall (fun x => x = 0 \/ x = 1) l -> 0 <= Py.sum l.
Proof. induction 1 as [|x l Hx _ IH]; simpl; lia. Qed.

Lemma sum_pos_flags (l : list Z) :
  Forall (fun x => x = 0 \/ x = 1) l ->
  (0 < Py.sum l <-> exists k, l !! k = Some 1).
Proof.
  induction 1 as [|x l Hx Hl IH]; simpl.
  - split; [lia|]. intros [k Hk]. discriminate.
  - pose proof (sum_flags_nonneg l Hl) as Hnn. destruct Hx as [-> | ->].
    + rewrite Z.add_0_l, IH. split.
      * intros [k Hk]. exists (S k). exact Hk.
      * intros [[|k] Hk]; [discriminate|]. exists k. exact Hk.
    + split; [|lia]. intros _. exists 0%nat. reflexivity.
Qed.

Lemma near_change_point_iff (cps : list Z) (cp_window : Z) (i : nat) :
  Forall (fun x => x = 0 \/ x = 1) cps ->
  0 <= cp_window -> (i < length cps)%nat ->
  near_change_point cps cp_window (Py.len cps) i = true <->
  exists j : nat, cps !! j = Some 1 /\ Z.abs (Z.of_nat i - Z.of_nat j) <= cp_window.
Proof.
  intros Hflags Hw Hi. unfold near_change_point.
  rewrite slice_inside by (unfold Py.len; lia).
  rewrite Z.ltb_lt, sum_pos_flags by (apply Forall_take, Forall_drop; exact Hflags).
  unfold Py.len. split.
  - intros [k Hk]. apply lookup_take_Some in Hk as [Hk Hlt]. rewrite lookup_drop in Hk.
    eexists. split; [exact Hk|]. apply lookup_lt_Some in Hk. lia.
  - intros (j & Hj & Hd). apply lookup_lt_Some in Hj as Hlt.
    exists (j - Z.to_nat (0 `max` (Z.of_nat i - cp_window)))%nat.
    apply lookup_take_Some. rewrite lookup_drop. split; [|lia].
    rewrite <- Hj. f_equal. lia.
Qed.

Lemma flags_by_distance
    (Pelt_fit_predict : string -> list float -> Z -> res (list Z))
    (bars : list bar) (LBL LBR cp_penalty : Z) (cp_model : string) (breaks : list Z) :
  0 <= LBL -> 0 <= LBR ->
  NoDup (label <$> bars) ->
  Pelt_fit_predict cp_model (price_value <$> bars) cp_penalty = Ok breaks ->
  Forall (fun cp => 0 <= cp) breaks ->
  exists highs lows cps,
    (forall cp_window,
       generate_signals Pelt_fit_predict bars LBL LBR cp_penalty cp_model cp_window
       = Ok (fused_frame bars highs lows cps cp_window)) /\
    forall cp_window i lbl row,
      0 <= cp_window ->
      fused_frame bars highs lows cps cp_window !! i = Some (lbl, row) ->
      highs !! i = Some (pvtHigh row) /\ lows !! i = Some (pvtLow row) /\
      (buy_signal row = true <->
         is_nan (pvtLow row) = false /\
         exists cp, cp ∈ breaks /\ cp < Py.len bars /\
                    Z.abs (Z.of_nat i - cp) <= cp_window) /\
      (sell_signal row = true <->
         is_nan (pvtHigh row) = false /\
         exists cp, cp ∈ breaks /\ cp < Py.len bars /\
                    Z.abs (Z.of_nat i - cp) <= cp_window).
Proof.
  intros HL HR Hnd Hsolver Hbreaks.
  destruct (pivot_lookup (osc_value <$> bars) LBL LBR "high" HL HR)
    as (highs & Eh & Hh & _).
  destruct (pivot_lookup (osc_value <$> bars) LBL LBR "low" HL HR)
    as (lows & El & Hl & _).
  rewrite length_fmap in Hh, Hl.
  assert (Hbelow : Forall (fun cp => - Z.of_nat (length bars) <= cp) breaks).
  { eapply Forall_impl; [exact Hbreaks|]. intros cp Hcp. simpl in Hcp. lia. }
  destruct (mark_loop (length bars) breaks Hbelow (replicate (length bars) 0))
    as (cps & Ec & Hc & Hlk); [apply length_replicate|].
  assert (Hflags : Forall (fun x => x = 0 \/ x = 1) cps).
  { eapply mark_loop_flags; [|exact Ec]. apply Forall_replicate. left. reflexivity. }
  assert (Hone : forall j : nat,
             cps !! j = Some 1 <-> Z.of_nat j ∈ breaks /\ (j < length bars)%nat).
  { intros j. split.
    - intros Hj. apply lookup_lt_Some in Hj as Hlt. rewrite Hc in Hlt.
      split; [|exact Hlt]. rewrite (Hlk j Hlt) in Hj.
      destruct (decide (Exists (fun cp => cp = Z.of_nat j \/ cp + Z.of_nat (length bars)
                                                           = Z.of_nat j) breaks))
        as [Hex|Hex].
      + apply Exists_exists in Hex as (cp & Hin & [-> | Hcp]); [exact Hin|].
        rewrite Forall_forall in Hbreaks. specialize (Hbreaks cp Hin).
        simpl in Hbreaks. lia.
      + rewrite (bool_decide_eq_false_2 _ Hex) in Hj.
        rewrite lookup_replicate_2 in Hj by exact Hlt. discriminate.
    - intros [Hin Hlt]. rewrite (Hlk j Hlt).
      rewrite bool_decide_eq_true_2; [reflexivity|].
      apply Exists_exists. exists (Z.of_nat j). auto. }
  exists highs, lows, cps. split.
  { intros w. apply (generate_signals_run _ _ _ _ _ _ _ highs lows breaks cps);
      assumption. }
  intros w i lbl row Hw Hrow.
  destruct (fused_frame_flags bars highs lows cps w Hnd i lbl row Hrow) as [Hbuy Hsell].
  destruct (fused_frame_pivots bars highs lows cps w Hh Hl Hc i lbl row Hrow)
    as (Hhigh & Hlow & _).
  assert (Hi : (i < length cps)%nat) by (apply lookup_lt_Some in Hhigh; lia).
  assert (Hnear : near_change_point cps w (Py.len bars) i = true <->
                  exists cp, cp ∈ breaks /\ cp < Py.len bars /\
                             Z.abs (Z.of_nat i - cp) <= w).
  { replace (Py.len bars) with (Py.len cps) by (unfold Py.len; rewrite Hc; reflexivity).
    rewrite (near_change_point_iff cps w i Hflags Hw Hi). unfold Py.len. rewrite Hc.
    split.
    - intros (j & Hj & Hd). apply Hone in Hj as [Hin Hlt].
      exists (Z.of_nat j). split; [exact Hin|]. split; [lia | exact Hd].
    - intros (cp & Hin & Hlt & Hd).
      rewrite Forall_forall in Hbreaks. specialize (Hbreaks cp Hin). simpl in Hbreaks.
      exists (Z.to_nat cp). rewrite Z2Nat.id by lia. split; [|exact Hd].
      apply Hone. rewrite Z2Nat.id by lia. split; [exact Hin | lia]. }
  split; [exact Hhigh|]. split; [exact Hlow|].
  unfold eligible in Hbuy, Hsell. rewrite Hlow in Hbuy. rewrite Hhigh in Hsell.
  simpl in Hbuy, Hsell.
  rewrite Hbuy, Hsell, !andb_true_iff, !negb_true_iff, Hnear. tauto.
Qed.

(** X9. A row is buy-eligible exactly when its pivot-low entry is a number and
    some breakpoint below the length of the series lies at most [cp_window]
    positions away, and sell-eligible likewise with its pivot-high entry (for
    non-negative window sizes, distinct index labels and non-negative
    breakpoints). *)
Theorem signal_iff_pivot_near_break
    (Pelt_fit_predict : string -> list float -> Z -> res (list Z))
    (bars : list bar) (LBL LBR cp_penalty : Z) (cp_model : string) (cp_window : Z)
    (breaks : list Z) :
  0 <= LBL -> 0 <= LBR -> 0 <= cp_window ->
  NoDup (label <$> bars) ->
  Pelt_fit_predict cp_model (price_value <$> bars) cp_penalty = Ok breaks ->
  Forall (fun cp => 0 <= cp) breaks ->
  exists frame,
    generate_signals Pelt_fit_predict bars LBL LBR cp_penalty cp_model cp_window
      = Ok frame /\
    forall i lbl row, frame !! i = Some (lbl, row) ->
      (buy_signal row = true <->
         is_nan (pvtLow row) = false /\
         exists cp, cp ∈ breaks /\ cp < Py.len bars /\
                    Z.abs (Z.of_nat i - cp) <= cp_window) /\
      (sell_signal row = true <->
         is_nan (pvtHigh row) = false /\
         exists cp, cp ∈ breaks /\ cp < Py.len bars /\
                    Z.abs (Z.of_nat i - cp) <= cp_window).
Proof.
  intros HL HR Hw Hnd Hsolver Hbreaks.
  destruct (flags_by_distance Pelt_fit_predict bars LBL LBR cp_penalty cp_model breaks
              HL HR Hnd Hsolver Hbreaks) as (highs & lows & cps & Hrun & Hrows).
  exists (fused_frame bars highs lows cps cp_window). split; [apply Hrun|].
  intros i lbl row Hrow.
  destruct (Hrows cp_window i lbl row Hw Hrow) as (_ & _ & Hbuy & Hsell).
  split; assumption.
Qed.

Lemma signal_iff_pivot_near_break_witness :
  exists frame,
    generate_signals (Pelt_answers [3]) (bars_of [1; 5; 2; 8; 3; 1; 9; 2]%float)
      1 1 10 "rbf" 1 = Ok frame /\
    forall i lbl row, frame !! i = Some (lbl, row) ->
      (buy_signal row = true <->
         is_nan (pvtLow row) = false /\
         exists cp, cp ∈ [3; 8] /\ cp < Py.len (bars_of [1; 5; 2; 8; 3; 1; 9; 2]%float) /\
                    Z.abs (Z.of_nat i - cp) <= 1) /\
      (sell_signal row = true <->
         is_nan (pvtHigh row) = false /\
         exists cp, cp ∈ [3; 8] /\ cp < Py.len (bars_of [1; 5; 2; 8; 3; 1; 9; 2]%float) /\
                    Z.abs (Z.of_nat i - cp) <= 1).
Proof.
  apply (signal_iff_pivot_near_break (Pelt_answers [3])
           (bars_of [1; 5; 2; 8; 3; 1; 9; 2]%float) 1 1 10 "rbf" 1 [3; 8]).
  - lia.
  - lia.
  - lia.
  - apply (bool_decide_unpack _). vm_compute. exact I.
  - reflexivity.
  - repeat constructor; lia.
Defined.

(** X10. A wider proximity window only adds signals: a row that is buy- or
    sell-eligible for [cp_window] is so for every larger window, the other
    arguments being the same. *)
Theorem wider_window_keeps_signals
    (Pelt_fit_predict : string -> list float -> Z -> res (list Z))
    (bars : list bar) (LBL LBR cp_penalty : Z) (cp_model : string)
    (cp_window wider : Z) (breaks : list Z) :
  0 <= LBL -> 0 <= LBR -> 0 <= cp_window <= wider ->
  NoDup (label <$> bars) ->
  Pelt_fit_predict cp_model (price_value <$> bars) cp_penalty = Ok breaks ->
  Forall (fun cp => 0 <= cp) breaks ->
  exists frame frame',
    generate_signals Pelt_fit_predict bars LBL LBR cp_penalty cp_model cp_window
      = Ok frame /\
    generate_signals Pelt_fit_predict bars LBL LBR cp_penalty cp_model wider
      = Ok frame' /\
    forall i lbl row lbl' row',
      frame !! i = Some (lbl, row) -> frame' !! i = Some (lbl', row') ->
      (buy_signal row = true -> buy_signal row' = true) /\
      (sell_signal row = true -> sell_signal row' = true).
Proof.
  intros HL HR Hw Hnd Hsolver Hbreaks.
  destruct (flags_by_distance Pelt_fit_predict bars LBL LBR cp_penalty cp_model breaks
              HL HR Hnd Hsolver Hbreaks) as (highs & lows & cps & Hrun & Hrows).
  exists (fused_frame bars highs lows cps cp_window), (fused_frame bars highs lows cps wider).
  split; [apply Hrun|]. split; [apply Hrun|].
  intros i lbl row lbl' row' Hrow Hrow'.
  destruct (Hrows cp_window i lbl row (proj1 Hw) Hrow) as (Hh & Hl & Hbuy & Hsell).
  assert (Hw' : 0 <= wider) by lia.
  destruct (Hrows wider i lbl' row' Hw' Hrow') as (Hh' & Hl' & Hbuy' & Hsell').
  assert (pvtHigh row' = pvtHigh row) by congruence.
  assert (pvtLow row' = pvtLow row) by congruence.
  split.
  - intros Hb. apply Hbuy in Hb as (Hnan & cp & Hin & Hlt & Hd).
    apply Hbuy'. split; [congruence|]. exists cp. split; [exact Hin|]. split; [exact Hlt | lia].
  - intros Hs. apply Hsell in Hs as (Hnan & cp & Hin & Hlt & Hd).
    apply Hsell'. split; [congruence|]. exists cp. split; [exact Hin|]. split; [exact Hlt | lia].
Qed.

Lemma wider_window_keeps_signals_witness :
  exists frame frame',
    generate_signals (Pelt_answers [3]) (bars_of [1; 5; 2; 8; 3; 1; 9; 2]%float)
      1 1 10 "rbf" 1 = Ok frame /\
    generate_signals (Pelt_answers [3]) (bars_of [1; 5; 2; 8; 3; 1; 9; 2]%float)
      1 1 10 "rbf" 3 = Ok frame' /\
    forall i lbl row lbl' row',
      frame !! i = Some (lbl, row) -> frame' !! i = Some (lbl', row') ->
      (buy_signal row = true -> buy_signal row' = true) /\
      (sell_signal row = true -> sell_signal row' = true).
Proof.
  apply (wider_window_keeps_signals (Pelt_answers [3])
           (bars_of [1; 5; 2; 8; 3; 1; 9; 2]%float) 1 1 10 "rbf" 1 3 [3; 8]).
  - lia.
  - lia.
  - lia.
  - apply (bool_decide_unpack _). vm_compute. exact I.
  - reflexivity.
  - repeat constructor; lia.
Defined.

(** ** The bars at the two ends *)

Lemma edge_rows_hold
    (Pelt_fit_predict : string -> list float -> Z -> res (list Z))
    (bars : list bar) (LBL LBR cp_penalty : Z) (cp_model : string) (cp_window : Z)
    (frame : SignalFrame) (i : nat) (lbl : Z) (row : SignalRow) :
  0 <= LBL -> 0 <= LBR ->
  NoDup (label <$> bars) ->
  generate_signals Pelt_fit_predict bars LBL LBR cp_penalty cp_model cp_window
    = Ok frame ->
  frame !! i = Some (lbl, row) ->
  Z.of_nat i < LBL \/ Py.len bars - LBR <= Z.of_nat i ->
  buy_signal row = false /\ sell_signal row = false /\ signal row = "hold".
Proof.
  intros HL HR Hnd Hrun Hrow Hedge.
  apply generate_signals_inv in Hrun
    as (highs & lows & breaks & cps & Eh & El & Hh & Hl & _ & _ & Hc & ->).
  destruct (fused_frame_flags bars highs lows cps cp_window Hnd i lbl row Hrow)
    as [Hbuy Hsell].
  assert (Hi : (i < length (osc_value <$> bars))%nat).
  { apply lookup_lt_Some in Hrow. rewrite length_fused_frame in Hrow.
    rewrite length_fmap. exact Hrow. }
  assert (Hout : bool_decide (LBL <= Z.of_nat i < Py.len (osc_value <$> bars) - LBR)
                 = false).
  { apply bool_decide_eq_false_2. unfold Py.len in *. rewrite length_fmap. lia. }
  destruct (pivot_lookup (osc_value <$> bars) LBL LBR "high" HL HR)
    as (highs' & Eh' & _ & Hlkh).
  destruct (pivot_lookup (osc_value <$> bars) LBL LBR "low" HL HR)
    as (lows' & El' & _ & Hlkl).
  assert (highs' = highs) by congruence. assert (lows' = lows) by congruence.
  subst highs' lows'.
  specialize (Hlkh i Hi). specialize (Hlkl i Hi). rewrite Hout in Hlkh, Hlkl.
  simpl in Hlkh, Hlkl.
  unfold eligible in Hbuy, Hsell. rewrite Hlkl in Hbuy. rewrite Hlkh in Hsell.
  change (negb (is_nan (default nan (Some nan)))) with false in Hbuy, Hsell.
  rewrite andb_false_r in Hbuy, Hsell.
  apply fused_frame_signal in Hrow. rewrite Hrow, Hbuy, Hsell. auto.
Qed.

(** X11. The first [LBL] and the last [LBR] rows of the frame never carry a
    signal: both flags are false there and the label is "hold", wherever the
    change points are (non-negative window sizes, distinct index labels). *)
Theorem no_signal_at_the_edges
    (Pelt_fit_predict : string -> list float -> Z -> res (list Z))
    (bars : list bar) (LBL LBR cp_penalty : Z) (cp_model : string) (cp_window : Z)
    (frame : SignalFrame) (i : nat) (lbl : Z) (row : SignalRow) :
  0 <= LBL -> 0 <= LBR ->
  NoDup (label <$> bars) ->
  generate_signals Pelt_fit_predict bars LBL LBR cp_penalty cp_model cp_window
    = Ok frame ->
  frame !! i = Some (lbl, row) ->
  Z.of_nat i < LBL \/ Py.len bars - LBR <= Z.of_nat i ->
  buy_signal row = false /\ sell_signal row = false /\ signal row = "hold".
Proof. apply edge_rows_hold. Qed.

Lemma no_signal_at_the_edges_witness :
  let row := {| price := 2; osc := 2; pvtHigh := nan; pvtLow := nan; change_point := 0;
                buy_signal := false; sell_signal := false; signal := "hold" |}%float in
  buy_signal row = false /\ sell_signal row = false /\ signal row = "hold".
Proof.
  assert (Hnd : NoDup (label <$> bars_of [1; 5; 2; 8; 3; 1; 9; 2]%float)).
  { apply (bool_decide_unpack _). vm_compute. exact I. }
  assert (H0 : 0 <= 1) by lia.
  assert (Hedge : Z.of_nat 7 < 1
                  \/ Py.len (bars_of [1; 5; 2; 8; 3; 1; 9; 2]%float) - 1 <= Z.of_nat 7).
  { right. unfold Py.len. simpl. lia. }
  exact (no_signal_at_the_edges (Pelt_answers [7])
           (bars_of [1; 5; 2; 8; 3; 1; 9; 2]%float) 1 1 10 "rbf" 1 _ 7%nat 7 _
           H0 H0 Hnd eq_refl eq_refl Hedge).
Defined.

(** ** More on the left join and the pipeline *)

Lemma merge_left_nil_right {A B : Type} (original : list (Z * A)) :
  merge_left original (@nil (Z * B)) = (fun la => (la.1, la.2, None)) <$> original.
Proof. induction original as [|la original IH]; [reflexivity|]. simpl. by f_equal. Qed.

Lemma unique_label {B : Type} (l : list (Z * B)) (t : Z) (x y : B) :
  NoDup l.*1 -> (t, x) ∈ l -> (t, y) ∈ l -> x = y.
Proof.
  intros Hnd Hx Hy.
  apply list_elem_of_lookup in Hx as [i Hi]. apply list_elem_of_lookup in Hy as [j Hj].
  assert (Hi1 : l.*1 !! i = Some t) by (rewrite list_lookup_fmap, Hi; reflexivity).
  assert (Hj1 : l.*1 !! j = Some t) by (rewrite list_lookup_fmap, Hj; reflexivity).
  assert (i = j) by (eapply NoDup_lookup; eassumption). subst j. congruence.
Qed.

(** X12. The left join never drops a row of the original table, repeated
    labels or not: the result is at least as long as the original, and every
    original row is the left part of one of its rows. *)
Theorem merge_never_drops {A B : Type} (original : list (Z * A)) (fused : list (Z * B)) :
  (length original <= length (merge_left original fused))%nat /\
  forall la, la ∈ original ->
    la ∈ (fun m : Z * A * option B => m.1) <$> merge_left original fused.
Proof.
  split.
  - rewrite <- (length_fmap (fun m : Z * A * option B => m.1)), merge_left_rows.
    induction original as [|la original IH]; [simpl; lia|].
    rewrite bind_cons, length_app, length_replicate. simpl. lia.
  - intros la Hin. rewrite merge_left_rows. apply list_elem_of_bind.
    exists la. split; [|exact Hin].
    destruct (length (filter (fun rb : Z * B => rb.1 = la.1) fused)); simpl; left.
Qed.

Section PipelineRows.
Variable Pelt_fit_predict : string -> list float -> Z -> res (list Z).
Context {Row : Type} (Close : Row -> float).

(** What [get_pvt_signals] attaches to the row at position [i]: the row of the
    frame at that position if one of its flags is set, nothing otherwise. *)
Lemma get_pvt_signals_row (data : list (Z * Row))
    (out : list (Z * Row * option AddedColumns)) (i : nat) (t : Z) (r : Row)
    (added : option AddedColumns) :
  NoDup data.*1 ->
  get_pvt_signals Pelt_fit_predict Close data = Ok out ->
  out !! i = Some (t, r, added) ->
  exists frame row,
    generate_signals Pelt_fit_predict
      ((fun d : Z * Row => Bar d.1 (Close d.2) (Close d.2)) <$> data) 5 5 20 "rbf" 8
      = Ok frame /\
    data !! i = Some (t, r) /\
    frame !! i = Some (t, row) /\
    added = if buy_signal row || sell_signal row
            then Some (drop_and_rename row) else None.
Proof.
  intros Hnd. unfold get_pvt_signals.
  destruct (generate_signals _ _ _ _ _ _ _) as [frame|] eqn:Hrun; simpl; [|discriminate].
  intros [= <-] Hout.
  rewrite list_lookup_fmap in Hout.
  destruct (merge_left data _ !! i) as [[[t' r'] ob]|] eqn:Hm; simpl in Hout;
    [|discriminate].
  injection Hout as -> -> <-.
  assert (Hlabels : frame.*1 = data.*1).
  { apply generate_signals_inv in Hrun
      as (highs & lows & breaks & cps & _ & _ & _ & _ & _ & _ & _ & ->).
    rewrite fused_frame_labels. destruct (bars_of_data Close data) as (Hlab & _ & _).
    exact Hlab. }
  assert (Hndf : NoDup frame.*1) by (rewrite Hlabels; exact Hnd).
  set (active := filter (fun r0 : Z * SignalRow => buy_signal r0.2 || sell_signal r0.2 = true)
                        frame) in *.
  assert (Hnda : NoDup active.*1).
  { eapply sublist_NoDup; [exact Hndf|]. apply fmap_sublist, sublist_filter. }
  assert (Hd : data !! i = Some (t, r)).
  { pose proof (merge_left_rows_unique data active Hnda) as Hrows.
    apply (f_equal (fun l => l !! i)) in Hrows.
    rewrite list_lookup_fmap, Hm in Hrows. simpl in Hrows. symmetry. exact Hrows. }
  assert (Hf : exists row, frame !! i = Some (t, row)).
  { assert (Ht : frame.*1 !! i = Some t)
      by (rewrite Hlabels, list_lookup_fmap, Hd; reflexivity).
    rewrite list_lookup_fmap in Ht.
    destruct (frame !! i) as [[t0 row]|]; simpl in Ht; [|discriminate].
    injection Ht as ->. exists row. reflexivity. }
  destruct Hf as [row Hf]. exists frame, row.
  split; [reflexivity|]. split; [exact Hd|]. split; [exact Hf|].
  assert (Hin : (t, r, ob) ∈ merge_left data active)
    by (apply list_elem_of_lookup; exists i; exact Hm).
  apply merge_left_elem in Hin as [_ Hob].
  assert (Hfin : (t, row) ∈ frame) by (apply list_elem_of_lookup; exists i; exact Hf).
  destruct ob as [b|]; simpl.
  - apply list_elem_of_filter in Hob as [Hact Hb]. simpl in Hact.
    assert (b = row) by exact (unique_label frame t b row Hndf Hb Hfin). subst b.
    rewrite Hact. reflexivity.
  - destruct (buy_signal row || sell_signal row) eqn:Hact; [|reflexivity].
    exfalso. apply Hob. apply list_elem_of_fmap. exists (t, row). split; [reflexivity|].
    apply list_elem_of_filter. split; [exact Hact | exact Hfin].
Qed.

End PipelineRows.

Lemma filter_none {A : Type} (P : A -> Prop) `{!forall x, Decision (P x)} (l : list A) :
  (forall x, x ∈ l -> ~ P x) -> filter P l = [].
Proof.
  induction l as [|x l IH]; intros Hno; [reflexivity|].
  rewrite filter_cons. destruct (decide (P x)) as [Hx|_].
  - exfalso. apply (Hno x); [left | exact Hx].
  - apply IH. intros y Hy. apply Hno. right. exact Hy.
Qed.

Lemma pivot_short (osc : list float) (LBL LBR : Z) (highlow : string) :
  Py.len osc < LBL + LBR + 1 ->
  pivot osc LBL LBR highlow = Ok (replicate (length osc) nan).
Proof.
  intros Hshort. unfold pivot, Py.range, seqZ.
  replace (Z.to_nat (Py.len osc - LBR - LBL)) with 0%nat by lia. reflexivity.
Qed.

Lemma raise_flags_no_marks (index : list Z) (cps : list Z) (cp_window : Z)
    (marks : list float) (idxs : list Z) (col : list bool) :
  (forall i, is_nan (default nan (marks !! i)) = true) ->
  foldl (raise_flag index cps cp_window marks) col idxs = col.
Proof.
  intros Hnan. induction idxs as [|i idxs IH]; [reflexivity|].
  simpl. unfold raise_flag at 2, eligible. rewrite Hnan, andb_false_r. exact IH.
Qed.

Section PipelineEdges.
Variable Pelt_fit_predict : string -> list float -> Z -> res (list Z).
Context {Row : Type} (Close : Row -> float).

Lemma get_pvt_signals_no_flags (data : list (Z * Row)) (frame : SignalFrame) :
  generate_signals Pelt_fit_predict
    ((fun d : Z * Row => Bar d.1 (Close d.2) (Close d.2)) <$> data) 5 5 20 "rbf" 8
    = Ok frame ->
  (forall i lbl row, frame !! i = Some (lbl, row) ->
     buy_signal row = false /\ sell_signal row = false) ->
  get_pvt_signals Pelt_fit_predict Close data
  = Ok ((fun d : Z * Row => (d.1, d.2, None)) <$> data).
Proof.
  intros Hrun Hflags. unfold get_pvt_signals. rewrite Hrun. simpl. f_equal.
  rewrite filter_none.
  - rewrite merge_left_nil_right, <- list_fmap_compose. reflexivity.
  - intros [lbl row] Hin. apply list_elem_of_lookup in Hin as [i Hi].
    destruct (Hflags i lbl row Hi) as [Hb Hs]. simpl. rewrite Hb, Hs. discriminate.
Qed.

(** X13. For distinct index labels the table [get_pvt_signals] returns has the
    rows of [data], each once and in order, and what is attached to a row is
    its own: the attached price and oscillator are the row's [Close], and the
    label is "buy" with a pivot-low entry that is a number (and no pivot
    high), or "sell" with a pivot-high entry that is a number (and no pivot
    low). *)
Theorem get_pvt_signals_attaches_own_row (data : list (Z * Row))
    (out : list (Z * Row * option AddedColumns)) :
  NoDup data.*1 ->
  get_pvt_signals Pelt_fit_predict Close data = Ok out ->
  (fun m : Z * Row * option AddedColumns => m.1) <$> out = data /\
  forall i t r a, out !! i = Some (t, r, Some a) ->
    added_price a = Close r /\ added_osc a = Close r /\
    ((cpd_pvt_signals a = "buy" /\ is_nan (added_pvtLow a) = false
      /\ is_nan (added_pvtHigh a) = true) \/
     (cpd_pvt_signals a = "sell" /\ is_nan (added_pvtHigh a) = false
      /\ is_nan (added_pvtLow a) = true)).
Proof.
  intros Hnd Hout.
  split; [exact (get_pvt_signals_keeps_rows Pelt_fit_predict Close data out Hnd Hout)|].
  intros i t r a Hi.
  destruct (get_pvt_signals_row Pelt_fit_predict Close data out i t r (Some a)
              Hnd Hout Hi) as (frame & row & Hrun & Hd & Hf & Ha).
  destruct (buy_signal row || sell_signal row) eqn:Hact; [|discriminate].
  injection Ha as ->.
  destruct (bars_of_data Close data) as (Hlab & _ & _). cbv zeta in Hlab.
  set (bars := (fun d : Z * Row => Bar d.1 (Close d.2) (Close d.2)) <$> data) in *.
  assert (Hndb : NoDup (label <$> bars)) by (rewrite Hlab; exact Hnd).
  assert (H5 : 0 <= 5) by lia. assert (H1 : 1 <= 5) by lia.
  destruct (flags_exclusive Pelt_fit_predict bars 5 5 20 "rbf" 8 frame i t row
              H5 H1 Hndb Hrun Hf) as [Hboth _].
  apply generate_signals_inv in Hrun
    as (highs & lows & breaks & cps & _ & _ & Hh & Hl & _ & _ & Hc & ->).
  destruct (fused_frame_flags bars highs lows cps 8 Hndb i t row Hf) as [Hbuy Hsell].
  destruct (fused_frame_pivots bars highs lows cps 8 Hh Hl Hc i t row Hf)
    as (Hhigh & Hlow & _).
  destruct (fused_frame_inputs bars highs lows cps 8) as [Hp Ho].
  apply (f_equal (fun l => l !! i)) in Hp, Ho.
  rewrite !list_lookup_fmap, Hf in Hp, Ho. unfold bars in Hp, Ho.
  rewrite list_lookup_fmap, Hd in Hp, Ho. simpl in Hp, Ho.
  injection Hp as Hp. injection Ho as Ho.
  pose proof (fused_frame_signal bars highs lows cps 8 i t row Hf) as Hsig.
  unfold eligible in Hbuy, Hsell. rewrite Hlow in Hbuy. rewrite Hhigh in Hsell.
  simpl in Hbuy, Hsell.
  split; [exact Hp|]. split; [exact Ho|]. simpl. rewrite Hsig.
  destruct (buy_signal row) eqn:Eb, (sell_signal row) eqn:Es; simpl in *.
  - exfalso. apply Hboth. auto.
  - left. symmetry in Hbuy, Hsell.
    apply andb_true_iff in Hbuy as [Hnear Hpl]. rewrite Hnear in Hsell. simpl in Hsell.
    apply negb_true_iff in Hpl. apply negb_false_iff in Hsell. auto.
  - right. symmetry in Hbuy, Hsell.
    apply andb_true_iff in Hsell as [Hnear Hph]. rewrite Hnear in Hbuy. simpl in Hbuy.
    apply negb_true_iff in Hph. apply negb_false_iff in Hbuy. auto.
  - discriminate.
Qed.

(** X14. With its windows of five bars [get_pvt_signals] never attaches a
    signal to the first five or to the last five rows of the table (distinct
    index labels). *)
Theorem no_signal_on_first_and_last_five (data : list (Z * Row))
    (out : list (Z * Row * option AddedColumns)) (i : nat) (t : Z) (r : Row)
    (added : option AddedColumns) :
  NoDup data.*1 ->
  get_pvt_signals Pelt_fit_predict Close data = Ok out ->
  out !! i = Some (t, r, added) ->
  Z.of_nat i < 5 \/ Py.len data - 5 <= Z.of_nat i ->
  added = None.
Proof.
  intros Hnd Hout Hi Hedge.
  destruct (get_pvt_signals_row Pelt_fit_predict Close data out i t r added
              Hnd Hout Hi) as (frame & row & Hrun & Hd & Hf & ->).
  destruct (bars_of_data Close data) as (Hlab & _ & Hlen). cbv zeta in Hlab, Hlen.
  set (bars := (fun d : Z * Row => Bar d.1 (Close d.2) (Close d.2)) <$> data) in *.
  assert (Hndb : NoDup (label <$> bars)) by (rewrite Hlab; exact Hnd).
  assert (H5 : 0 <= 5) by lia. rewrite <- Hlen in Hedge.
  destruct (edge_rows_hold Pelt_fit_predict bars 5 5 20 "rbf" 8 frame i t row
              H5 H5 Hndb Hrun Hf Hedge) as (-> & -> & _).
  reflexivity.
Qed.

(** X15. A table of fewer than eleven rows is too short for the two windows of
    five bars: whatever its labels, [get_pvt_signals] returns it with nothing
    attached to any row. *)
Theorem short_table_gets_no_signal (data : list (Z * Row))
    (out : list (Z * Row * option AddedColumns)) :
  Py.len data < 11 ->
  get_pvt_signals Pelt_fit_predict Close data = Ok out ->
  out = (fun d : Z * Row => (d.1, d.2, None)) <$> data.
Proof.
  intros Hshort Hout.
  assert (Hrun : exists frame,
             generate_signals Pelt_fit_predict
               ((fun d : Z * Row => Bar d.1 (Close d.2) (Close d.2)) <$> data)
               5 5 20 "rbf" 8 = Ok frame).
  { unfold get_pvt_signals in Hout.
    destruct (generate_signals _ _ _ _ _ _ _) as [frame|]; [eauto | discriminate]. }
  destruct Hrun as [frame Hrun].
  rewrite (get_pvt_signals_no_flags data frame Hrun) in Hout; [congruence|].
  destruct (bars_of_data Close data) as (_ & _ & Hlen). cbv zeta in Hlen.
  set (bars := (fun d : Z * Row => Bar d.1 (Close d.2) (Close d.2)) <$> data) in *.
  apply generate_signals_inv in Hrun
    as (highs & lows & breaks & cps & Eh & El & _ & _ & _ & _ & _ & ->).
  assert (Hs : Py.len (osc_value <$> bars) < 5 + 5 + 1).
  { unfold Py.len in *. rewrite length_fmap. lia. }
  rewrite (pivot_short _ 5 5 "high" Hs) in Eh. rewrite (pivot_short _ 5 5 "low" Hs) in El.
  injection Eh as <-. injection El as <-.
  assert (Hnan : forall i,
             is_nan (default nan (replicate (length (osc_value <$> bars)) nan !! i)) = true).
  { intros i. destruct (replicate _ _ !! i) as [v|] eqn:E; [|reflexivity].
    apply lookup_replicate_1 in E as [-> _]. reflexivity. }
  intros i lbl row. unfold fused_frame, frame_of. cbv zeta.
  rewrite !(raise_flags_no_marks _ _ _ _ _ _ Hnan).
  rewrite list_lookup_imap, !list_lookup_fmap.
  destruct (bars !! i) as [b|] eqn:Hb; simpl; [|discriminate].
  apply lookup_lt_Some in Hb.
  intros [= <- <-]. simpl.
  rewrite lookup_replicate_2 by (rewrite !length_fmap; exact Hb). auto.
Qed.

(** X16. An exception of the segmentation routine leaves [get_pvt_signals]
    as it is. *)
Theorem get_pvt_signals_raises (data : list (Z * Row)) (e : exn) :
  Pelt_fit_predict "rbf" ((fun d : Z * Row => Close d.2) <$> data) 20 = Raise e ->
  get_pvt_signals Pelt_fit_predict Close data = Raise e.
Proof.
  intros Hsolver. destruct (bars_of_data Close data) as (_ & Hprices & _).
  cbv zeta in Hprices. rewrite <- Hprices in Hsolver.
  assert (H5 : 0 <= 5) by lia.
  unfold get_pvt_signals.
  rewrite (generate_signals_raises Pelt_fit_predict _ 5 5 20 "rbf" 8 H5 H5 e Hsolver).
  reflexivity.
Qed.

(** X17. When the segmentation routine returns no breakpoint below the length
    of the series, [get_pvt_signals] returns the table with nothing attached
    to any row. *)
Theorem no_break_no_signal (data : list (Z * Row)) (breaks : list Z) :
  Pelt_fit_predict "rbf" ((fun d : Z * Row => Close d.2) <$> data) 20 = Ok breaks ->
  Forall (fun cp => Py.len data <= cp) breaks ->
  get_pvt_signals Pelt_fit_predict Close data
  = Ok ((fun d : Z * Row => (d.1, d.2, None)) <$> data).
Proof.
  intros Hsolver Hbreaks.
  destruct (bars_of_data Close data) as (_ & Hprices & Hlen). cbv zeta in Hprices, Hlen.
  rewrite <- Hprices in Hsolver. rewrite <- Hlen in Hbreaks.
  assert (H5 : 0 <= 5) by lia.
  destruct (generate_signals_all_hold Pelt_fit_predict _ 5 5 20 "rbf" 8 H5 H5 breaks
              Hsolver Hbreaks) as (frame & Hrun & _ & Hrows).
  apply (get_pvt_signals_no_flags data frame Hrun).
  intros i lbl row Hrow. destruct (Hrows i lbl row Hrow) as (Hb & Hs & _). auto.
Qed.

End PipelineEdges.

Lemma get_pvt_signals_attaches_own_row_witness :
  exists out,
    get_pvt_signals (Pelt_answers [3]) (fun close : float => close)
      (table_of [1; 5; 2; 8; 3; 1; 9; 2; 1; 2; 3; 4; 5; 6; 7; 8]%float) = Ok out /\
    (fun m : Z * float * option AddedColumns => m.1) <$> out
      = table_of [1; 5; 2; 8; 3; 1; 9; 2; 1; 2; 3; 4; 5; 6; 7; 8]%float /\
    forall i t r a, out !! i = Some (t, r, Some a) ->
      added_price a = r /\ added_osc a = r /\
      ((cpd_pvt_signals a = "buy" /\ is_nan (added_pvtLow a) = false
        /\ is_nan (added_pvtHigh a) = true) \/
       (cpd_pvt_signals a = "sell" /\ is_nan (added_pvtHigh a) = false
        /\ is_nan (added_pvtLow a) = true)).
Proof.
  eexists. split; [reflexivity|].
  apply (get_pvt_signals_attaches_own_row (Pelt_answers [3]) (fun close : float => close)
           (table_of [1; 5; 2; 8; 3; 1; 9; 2; 1; 2; 3; 4; 5; 6; 7; 8]%float)).
  - apply (bool_decide_unpack _). vm_compute. exact I.
  - reflexivity.
Defined.

Lemma no_signal_on_first_and_last_five_witness :
  exists out,
    get_pvt_signals (Pelt_answers [12]) (fun close : float => close)
      (table_of [1; 5; 2; 8; 3; 1; 9; 2; 1; 2; 3; 4; 5; 6; 7; 8]%float) = Ok out /\
    forall t r added, out !! 13%nat = Some (t, r, added) -> added = None.
Proof.
  eexists. split; [reflexivity|]. intros t r added Hrow.
  eapply (no_signal_on_first_and_last_five (Pelt_answers [12]) (fun close : float => close)
            (table_of [1; 5; 2; 8; 3; 1; 9; 2; 1; 2; 3; 4; 5; 6; 7; 8]%float)
            _ 13%nat t r added).
  - apply (bool_decide_unpack _). vm_compute. exact I.
  - reflexivity.
  - exact Hrow.
  - right. unfold Py.len. simpl. lia.
Defined.

Lemma short_table_gets_no_signal_witness :
  exists out,
    get_pvt_signals (Pelt_answers [2]) (fun close : float => close)
      (table_of [1; 5; 2; 8; 3]%float) = Ok out /\
    out = (fun d : Z * float => (d.1, d.2, None)) <$> table_of [1; 5; 2; 8; 3]%float.
Proof.
  eexists. split; [reflexivity|].
  apply (short_table_gets_no_signal (Pelt_answers [2]) (fun close : float => close)
           (table_of [1; 5; 2; 8; 3]%float)).
  - unfold Py.len. simpl. lia.
  - reflexivity.
Defined.

Lemma get_pvt_signals_raises_witness :
  get_pvt_signals Pelt_refuses (fun close : float => close) (table_of [1]%float)
  = Raise BadSegmentationParameters.
Proof.
  apply (get_pvt_signals_raises Pelt_refuses (fun close : float => close)
           (table_of [1]%float) BadSegmentationParameters).
  reflexivity.
Defined.

Lemma no_break_no_signal_witness :
  get_pvt_signals (Pelt_answers []) (fun close : float => close)
    (table_of [1; 5; 2; 8; 3; 1; 9; 2; 1; 2; 3; 4; 5; 6; 7; 8]%float)
  = Ok ((fun d : Z * float => (d.1, d.2, None))
          <$> table_of [1; 5; 2; 8; 3; 1; 9; 2; 1; 2; 3; 4; 5; 6; 7; 8]%float).
Proof.
  apply (no_break_no_signal (Pelt_answers []) (fun close : float => close)
           (table_of [1; 5; 2; 8; 3; 1; 9; 2; 1; 2; 3; 4; 5; 6; 7; 8]%float) [16]).
  - reflexivity.
  - repeat constructor. unfold Py.len. simpl. lia.
Defined.

(** ** The indicator signals of [Signals.py] *)

(** X18. The RSI label is 'Buy' exactly below 30 and 'Sell' exactly above 65,
    the two never meet, and a row without RSI (NaN, the warm-up rows) is
    'Hold'. *)
Theorem rsi_signal_cases (x : float) :
  (rsi_signal x = "Buy" <-> flt x 30 = true) /\
  (rsi_signal x = "Sell" <-> fgt x 65 = true) /\
  (rsi_signal x = "Hold" <-> flt x 30 = false /\ fgt x 65 = false) /\
  (is_nan x = true -> rsi_signal x = "Hold").
Proof.
  assert (Hex : flt x 30 = true -> fgt x 65 = true -> False).
  { unfold flt, fgt. intros H1 H2. pose proof (ltb_trans _ _ _ H2 H1) as H.
    vm_compute in H. discriminate. }
  assert (Hnan : is_nan x = true -> flt x 30 = false /\ fgt x 65 = false).
  { intros Hn. unfold flt, fgt. split; apply nan_not_ltb; auto. }
  unfold rsi_signal.
  destruct (flt x 30) eqn:E1, (fgt x 65) eqn:E2;
    try (exfalso; apply Hex; reflexivity);
    (split; [|split; [|split]]);
    try (split; intros; try discriminate; try reflexivity; intuition discriminate);
    try (intros Hn; destruct (Hnan Hn); congruence).
Qed.

(** X19. The MACD label: the 'Buy' and the 'Sell' condition exclude each other
    ([MACD] cannot be above 1 and below -1), so that the label is 'Buy'
    exactly on the first condition, 'Sell' exactly on the second and null
    exactly when both fail; a row without RSI gets no label. *)
Theorem macd_signals_cases (MACD Signal RSI : float) :
  let MACD_Hist := PrimFloat.sub MACD Signal in
  let buy_condition :=
    fgt MACD 1 && fgt MACD Signal && fgt MACD_Hist 1 && fgt RSI 40 in
  let sell_condition :=
    flt MACD (-1) && flt MACD Signal && flt MACD_Hist (-1) && flt RSI 60 in
  ~ (buy_condition = true /\ sell_condition = true) /\
  (macd_signals MACD Signal RSI = Some "Buy" <-> buy_condition = true) /\
  (macd_signals MACD Signal RSI = Some "Sell" <-> sell_condition = true) /\
  (macd_signals MACD Signal RSI = None <->
     buy_condition = false /\ sell_condition = false) /\
  (is_nan RSI = true -> macd_signals MACD Signal RSI = None).
Proof.
  cbv zeta.
  set (b := fgt MACD 1 && fgt MACD Signal && fgt (PrimFloat.sub MACD Signal) 1
            && fgt RSI 40).
  set (c := flt MACD (-1) && flt MACD Signal && flt (PrimFloat.sub MACD Signal) (-1)
            && flt RSI 60).
  assert (Hex : ~ (b = true /\ c = true)).
  { unfold b, c. rewrite !andb_true_iff. intros [[[[H1 _] _] _] [[[H2 _] _] _]].
    unfold fgt, flt in H1, H2. pose proof (ltb_trans _ _ _ H1 H2) as H.
    vm_compute in H. discriminate. }
  assert (Hnan : is_nan RSI = true -> b = false /\ c = false).
  { intros Hn. unfold b, c, fgt, flt.
    rewrite (nan_not_ltb 40 RSI), (nan_not_ltb RSI 60) by auto.
    rewrite !andb_false_r. auto. }
  assert (Hm : macd_signals MACD Signal RSI
               = if c then Some "Sell" else if b then Some "Buy" else None)
    by reflexivity.
  rewrite Hm. split; [exact Hex|].
  destruct b, c; try (exfalso; apply Hex; auto; fail);
    (split; [|split; [|split]]);
    try (split; intros; try discriminate; try reflexivity; intuition discriminate);
    try (intros Hn; destruct (Hnan Hn); congruence).
Qed.

(** X20. The final label needs both sources to agree: it is 'Buy' exactly when
    the pivot engine says "buy" and the MACD label is 'Buy', 'Sell' exactly
    when they say "sell" and 'Sell', and null otherwise; in particular a row
    to which [get_pvt_signals] attached nothing has no final label. *)
Theorem final_signal_cases (cpd macd : option string) :
  (final_signal cpd macd = Some "Buy" <-> cpd = Some "buy" /\ macd = Some "Buy") /\
  (final_signal cpd macd = Some "Sell" <-> cpd = Some "sell" /\ macd = Some "Sell") /\
  (final_signal cpd macd = None <->
     ~ (cpd = Some "buy" /\ macd = Some "Buy") /\
     ~ (cpd = Some "sell" /\ macd = Some "Sell")) /\
  final_signal None macd = None.
Proof.
  unfold final_signal.
  destruct (decide (cpd = Some "buy")) as [Hb|Hb],
           (decide (macd = Some "Buy")) as [Hm|Hm],
           (decide (cpd = Some "sell")) as [Hs|Hs],
           (decide (macd = Some "Sell")) as [Hn|Hn];
    try congruence;
    rewrite ?(bool_decide_eq_true_2 _ Hb), ?(bool_decide_eq_false_2 _ Hb),
            ?(bool_decide_eq_true_2 _ Hm), ?(bool_decide_eq_false_2 _ Hm),
            ?(bool_decide_eq_true_2 _ Hs), ?(bool_decide_eq_false_2 _ Hs),
            ?(bool_decide_eq_true_2 _ Hn), ?(bool_decide_eq_false_2 _ Hn);
    simpl; repeat split; intros; try congruence; try tauto;
    try (intuition congruence).
Qed.

Lemma final_signal_values (cpd macd : option string) :
  final_signal cpd macd = None \/ final_signal cpd macd = Some "Buy"
  \/ final_signal cpd macd = Some "Sell".
Proof.
  unfold final_signal.
  destruct (_ && _); [auto|]. destruct (_ && _); auto.
Qed.

(** X21. The numbers of the headline add up: the rows counted as signals are
    the rows counted as 'Buy' and the rows counted as 'Sell'. *)
Theorem headline_adds_up (output : list (option string * option string)) :
  (headline output).1.1 = ((headline output).1.2 + (headline output).2)%nat.
Proof.
  unfold headline, final_signals. simpl.
  induction output as [|r output IH]; [reflexivity|].
  rewrite fmap_cons, filter_cons.
  destruct (final_signal_values r.1 r.2) as [E|[E|E]]; rewrite E.
  - rewrite decide_False by (intros H; apply H; reflexivity). exact IH.
  - rewrite decide_True by discriminate. rewrite !filter_cons.
    rewrite decide_True by reflexivity. rewrite decide_False by discriminate.
    simpl. rewrite IH. reflexivity.
  - rewrite decide_True by discriminate. rewrite !filter_cons.
    rewrite decide_False by discriminate. rewrite decide_True by reflexivity.
    simpl. rewrite IH. lia.
Qed.

(** ** [get_data] and [start_bot] *)

Lemma reset_index_labels {Row : Type} (rows : list Row) :
  NoDup (reset_index rows).*1.
Proof.
  replace ((reset_index rows).*1) with (Z.of_nat <$> seq 0 (length rows)).
  - apply NoDup_fmap_2; [apply Nat2Z.inj' | apply NoDup_seq].
  - apply list_eq. intros i. unfold reset_index.
    rewrite !list_lookup_fmap, list_lookup_imap.
    destruct (rows !! i) as [r|] eqn:Hr; simpl.
    + rewrite lookup_seq_lt by (apply lookup_lt_Some in Hr; exact Hr). reflexivity.
    + rewrite lookup_seq_ge by (apply lookup_ge_None in Hr; exact Hr). reflexivity.
Qed.

Section BotProperties.
Variable Pelt_fit_predict : string -> list float -> Z -> res (list Z).
Context {Row : Type} (Close : Row -> float).
Variable cached : string -> option (res (list (Z * Row * option AddedColumns))).
Variable history : string -> res (list Row).

Lemma get_pvt_signals_values (data : list (Z * Row))
    (out : list (Z * Row * option AddedColumns)) (t : Z) (r : Row)
    (added : option AddedColumns) :
  NoDup data.*1 ->
  get_pvt_signals Pelt_fit_predict Close data = Ok out ->
  (t, r, added) ∈ out ->
  cpd_pvt_signals <$> added = None \/
  cpd_pvt_signals <$> added = Some "buy" \/
  cpd_pvt_signals <$> added = Some "sell".
Proof.
  intros Hnd Hout Hin. apply list_elem_of_lookup in Hin as [i Hi].
  destruct (get_pvt_signals_row Pelt_fit_predict Close data out i t r added
              Hnd Hout Hi) as (frame & row & Hrun & Hd & Hf & ->).
  destruct (buy_signal row || sell_signal row) eqn:Hact; [|left; reflexivity].
  right. simpl.
  destruct (bars_of_data Close data) as (Hlab & _ & _). cbv zeta in Hlab.
  rewrite <- Hlab in Hnd.
  assert (H5 : 0 <= 5) by lia. assert (H1 : 1 <= 5) by lia.
  destruct (flags_exclusive Pelt_fit_predict _ 5 5 20 "rbf" 8 frame i t row
              H5 H1 Hnd Hrun Hf) as [_ Hlabel].
  apply orb_true_iff in Hact. destruct (Hlabel Hact) as [-> | ->]; auto.
Qed.

Lemma collected (stocks : list string) :
  forall signal_data,
    foldl (collect Pelt_fit_predict Close cached history) signal_data stocks
    = (signal_data ++
       (stocks ≫= fun stock =>
          match get_data Pelt_fit_predict Close cached history stock with
          | Ok data => [data]
          | Raise _ => []
          end))%list.
Proof.
  induction stocks as [|stock stocks IH]; intros acc; simpl.
  - rewrite app_nil_r. reflexivity.
  - rewrite IH. unfold collect.
    destruct (get_data _ _ _ _ stock); simpl; [rewrite <- app_assoc|]; reflexivity.
Qed.

(** X22. A stock that is not served from today's file gets a fresh download,
    whose rows come back one for one under the labels 0, 1, 2, ..., each with
    "buy", "sell" or nothing attached: the index [reset_index] gives has no
    repeated label. *)
Theorem get_data_fresh (stock : string) (rows : list Row)
    (out : list (Z * Row * option AddedColumns)) :
  cached stock = None ->
  history stock = Ok rows ->
  get_data Pelt_fit_predict Close cached history stock = Ok out ->
  (fun m : Z * Row * option AddedColumns => m.1) <$> out = reset_index rows /\
  forall t r added, (t, r, added) ∈ out ->
    cpd_pvt_signals <$> added = None \/
    cpd_pvt_signals <$> added = Some "buy" \/
    cpd_pvt_signals <$> added = Some "sell".
Proof.
  intros Hc Hh. unfold get_data. rewrite Hc, Hh. simpl. intros Hout.
  pose proof (reset_index_labels rows) as Hnd. split.
  - exact (get_pvt_signals_keeps_rows Pelt_fit_predict Close _ out Hnd Hout).
  - intros t r added Hin.
    exact (get_pvt_signals_values _ out t r added Hnd Hout Hin).
Qed.


(** X24. The table [start_bot] returns is the tables of the stocks, put one
    after the other in the order of the list; a stock whose [get_data] raises
    contributes no row and does not disturb the others. *)
Theorem start_bot_rows (stocks : list string)
    (out : list (Z * Row * option AddedColumns)) :
  start_bot Pelt_fit_predict Close cached history stocks = Ok out ->
  out = stocks ≫= fun stock =>
          match get_data Pelt_fit_predict Close cached history stock with
          | Ok data => data
          | Raise _ => []
          end.
Proof.
  unfold start_bot. rewrite collected, app_nil_l.
  assert (Hc : concat (stocks ≫= fun stock =>
                 match get_data Pelt_fit_predict Close cached history stock with
                 | Ok data => [data]
                 | Raise _ => []
                 end)
               = stocks ≫= fun stock =>
                   match get_data Pelt_fit_predict Close cached history stock with
                   | Ok data => data
                   | Raise _ => []
                   end).
  { induction stocks as [|stock stocks IH]; [reflexivity|].
    rewrite !bind_cons, concat_app, IH. f_equal.
    destruct (get_data _ _ _ _ stock); simpl; [apply app_nil_r | reflexivity]. }
  destruct (stocks ≫= _) eqn:E; [discriminate|].
  intros [= <-]. exact Hc.
Qed.

(** X25. When no stock is served from a file, every row of the table
    [start_bot] returns has "buy", "sell" or nothing in [cpd_pvt_signals]. *)
Theorem start_bot_signal_values (stocks : list string)
    (out : list (Z * Row * option AddedColumns)) (t : Z) (r : Row)
    (added : option AddedColumns) :
  (forall stock, cached stock = None) ->
  start_bot Pelt_fit_predict Close cached history stocks = Ok out ->
  (t, r, added) ∈ out ->
  cpd_pvt_signals <$> added = None \/
  cpd_pvt_signals <$> added = Some "buy" \/
  cpd_pvt_signals <$> added = Some "sell".
Proof.
  intros Hc Hout Hin. unfold start_bot in Hout. rewrite collected, app_nil_l in Hout.
  assert (Hsrc : exists stock data,
             get_data Pelt_fit_predict Close cached history stock = Ok data /\
             (t, r, added) ∈ data).
  { assert (Hin' : (t, r, added) ∈ concat (stocks ≫= fun stock =>
               match get_data Pelt_fit_predict Close cached history stock with
               | Ok data => [data]
               | Raise _ => []
               end)).
    { destruct (stocks ≫= _) as [|d ds]; [discriminate|].
      inversion Hout; subst. exact Hin. }
    clear Hin Hout. rename Hin' into Hin.
    induction stocks as [|stock stocks IH]; [apply elem_of_nil in Hin; contradiction|].
    rewrite bind_cons, concat_app in Hin. apply elem_of_app in Hin as [Hin|Hin].
    - destruct (get_data _ _ _ _ stock) as [data|] eqn:Eg; simpl in Hin.
      + rewrite app_nil_r in Hin. eauto.
      + apply elem_of_nil in Hin. contradiction.
    - apply IH. exact Hin. }
  destruct Hsrc as (stock & data & Hget & Hd).
  unfold get_data in Hget. rewrite Hc in Hget.
  destruct (history stock) as [rows|]; simpl in Hget; [|discriminate].
  exact (get_pvt_signals_values _ data t r added (reset_index_labels rows) Hget Hd).
Qed.

End BotProperties.

Lemma get_data_fresh_witness :
  exists out,
    get_data (Pelt_answers [3]) (fun close : float => close) no_file history_of_TCS "TCS"
      = Ok out /\
    (fun m : Z * float * option AddedColumns => m.1) <$> out
      = reset_index [1; 5; 2; 8; 3; 1; 9; 2; 1; 2; 3; 4; 5; 6; 7; 8]%float /\
    forall t r added, (t, r, added) ∈ out ->
      cpd_pvt_signals <$> added = None \/
      cpd_pvt_signals <$> added = Some "buy" \/
      cpd_pvt_signals <$> added = Some "sell".
Proof.
  eexists. split; [reflexivity|].
  apply (get_data_fresh (Pelt_answers [3]) (fun close : float => close)
           no_file history_of_TCS "TCS"); reflexivity.
Defined.

Lemma start_bot_rows_witness :
  exists out,
    start_bot (Pelt_answers [3]) (fun close : float => close) no_file history_of_TCS
      ["INFY"; "TCS"] = Ok out /\
    out = ["INFY"; "TCS"] ≫= fun stock =>
            match get_data (Pelt_answers [3]) (fun close : float => close)
                    no_file history_of_TCS stock with
            | Ok data => data
            | Raise _ => []
            end.
Proof.
  eexists. split; [reflexivity|].
  apply (start_bot_rows (Pelt_answers [3]) (fun close : float => close)
           no_file history_of_TCS ["INFY"; "TCS"]).
  reflexivity.
Defined.

Lemma start_bot_signal_values_witness :
  exists out,
    start_bot (Pelt_answers [3]) (fun close : float => close) no_file history_of_TCS
      ["INFY"; "TCS"] = Ok out /\
    forall t r added, (t, r, added) ∈ out ->
      cpd_pvt_signals <$> added = None \/
      cpd_pvt_signals <$> added = Some "buy" \/
      cpd_pvt_signals <$> added = Some "sell".
Proof.
  eexists. split; [reflexivity|]. intros t r added Hin.
  eapply (start_bot_signal_values (Pelt_answers [3]) (fun close : float => close)
            no_file history_of_TCS ["INFY"; "TCS"] _ t r added).
  - intros stock. reflexivity.
  - reflexivity.
  - exact Hin.
Defined.

(** A listing in which every download fails ends in the [ValueError] of
    [pd.concat]; with one good symbol the rows of that symbol come back. *)
Example start_bot_scenarios :
  start_bot (Pelt_answers [3]) (fun close : float => close) no_file history_of_TCS
    ["INFY"; "WIPRO"] = Raise ValueError /\
  exists out,
    start_bot Pelt_refuses (fun close : float => close) no_file history_of_TCS
      ["TCS"] = Raise ValueError /\
    start_bot (Pelt_answers [3]) (fun close : float => close) no_file history_of_TCS
      ["INFY"; "TCS"; "WIPRO"] = Ok out /\
    length out = 16%nat.
Proof. split; [reflexivity|]. eexists. repeat split; reflexivity. Qed.
